(** * pyx509: typed models of X.509 certificates (x509/pkcs7_models.py)

    A shallow embedding of the parts of [pkcs7_models.py] that carry the
    library's parsing policy: the Distinguished-Name canonical form, the
    validity-interval date handling, the KeyUsage bit flags, the extension
    registry with its critical / non-critical error policy, and the
    point-in-time validity evaluation of [X509Certificate].

    Python objects that the code shares and mutates (the verification-result
    dictionaries) live in an explicit store; exceptions are values of an
    error monad. *)

From Stdlib Require Import ZArith String Ascii List Bool Lia.
From stdpp Require Import base option list sorting gmap strings pretty fin_maps.

Local Open Scope string_scope.
Local Open Scope Z_scope.

(** ** Exceptions and the error monad *)

(** The exception classes the module raises, catches or lets through. *)
Inductive exn : Type :=
  | PyAsn1Error
  | CertificateError (msg : string)
  | ValueError
  | IndexError
  | TypeError
  | AttributeError.

Inductive result (A : Type) : Type :=
  | Ok (a : A)
  | Raise (e : exn).
Arguments Ok {A} a.
Arguments Raise {A} e.

Definition rbind {A B} (r : result A) (k : A -> result B) : result B :=
  match r with
  | Ok a => k a
  | Raise e => Raise e
  end.

Global Instance result_ret : MRet result := @Ok.
Global Instance result_bind : MBind result := fun A B k r => rbind r k.

(** ** Python built-ins used by the module *)

Module Py.

(** Values a verification-result dictionary holds: [None], [True], [False]. *)
Inductive value : Type :=
  | PyNone
  | PyBool (b : bool).

(** Truth value, as tested by [if value:]. *)
Definition truthy (v : value) : bool :=
  match v with
  | PyNone => false
  | PyBool b => b
  end.

(** [value is None] *)
Definition is_None (v : value) : bool :=
  match v with
  | PyNone => true
  | PyBool _ => false
  end.

(** What [_value] of a decoded primitive holds: a BIT STRING carries a tuple
    of ints, an INTEGER an int. *)
Inductive object : Type :=
  | PyTuple (items : list Z)
  | PyInt (n : Z).

(** [obj[i]] for a non-negative literal index: a tuple raises [IndexError]
    past its end, an int is not subscriptable. *)
Definition getitem (obj : object) (i : nat) : result Z :=
  match obj with
  | PyTuple items =>
      match nth_error items i with
      | Some x => Ok x
      | None => Raise IndexError
      end
  | PyInt _ => Raise TypeError
  end.

(** [s[a:b]] for literal bounds [0 <= a <= b]: clipped to the string. *)
Definition slice (s : string) (a b : nat) : string :=
  String.substring a (b - a) s.

(** [s[:b]] *)
Definition slice_to (s : string) (b : nat) : string := slice s 0 b.

Definition code (c : ascii) : Z := Z.of_N (N_of_ascii c).

(** Whitespace stripped by [int()]: space, and tab .. carriage return. *)
Definition is_space (c : ascii) : bool :=
  (code c =? 32) || ((9 <=? code c) && (code c <=? 13)).

Definition digit_of (c : ascii) : option Z :=
  if (48 <=? code c) && (code c <=? 57) then Some (code c - 48) else None.

Fixpoint lstrip (s : string) : string :=
  match s with
  | EmptyString => EmptyString
  | String c s' => if is_space c then lstrip s' else s
  end.

Fixpoint rstrip (s : string) : string :=
  match s with
  | EmptyString => EmptyString
  | String c s' =>
      match rstrip s' with
      | EmptyString => if is_space c then EmptyString else String c EmptyString
      | r => String c r
      end
  end.

Fixpoint digits (acc : Z) (s : string) : option Z :=
  match s with
  | EmptyString => Some acc
  | String c s' =>
      match digit_of c with
      | Some d => digits (10 * acc + d) s'
      | None => None
      end
  end.

(** One or more decimal digits. *)
Definition unsigned (s : string) : result Z :=
  match s with
  | EmptyString => Raise ValueError
  | _ => match digits 0 s with
         | Some n => Ok n
         | None => Raise ValueError
         end
  end.

(** [int(s)] on a byte string, base 10: surrounding whitespace is dropped,
    one sign is accepted, anything else raises [ValueError]. *)
Definition int (s : string) : result Z :=
  match rstrip (lstrip s) with
  | String "-"%char r => n ← unsigned r; Ok (- n)
  | String "+"%char r => unsigned r
  | r => unsigned r
  end.

(** [sep.join(parts)] *)
Fixpoint join (sep : string) (parts : list string) : string :=
  match parts with
  | [] => EmptyString
  | [p] => p
  | p :: rest => p +:+ sep +:+ join sep rest
  end.

(** Order of [str] values under [<=]: by character code, a proper prefix
    first. *)
Definition str_le (a b : string) : Prop := String.leb a b = true.

Global Instance str_le_dec a b : Decision (str_le a b).
Proof. unfold str_le. apply bool_eq_dec. Defined.

(** [sorted(strings)] *)
Definition sorted (l : list string) : list string := merge_sort str_le l.

End Py.

(** ** datetime.datetime (naive), as the standard library documents it *)

Module datetime.

Record t : Type := mk {
  year : Z; month : Z; day : Z;
  hour : Z; minute : Z; second : Z; microsecond : Z
}.

Definition is_leap (y : Z) : bool :=
  (y mod 4 =? 0) && (negb (y mod 100 =? 0) || (y mod 400 =? 0)).

Definition days_in_month (y m : Z) : Z :=
  if m =? 2 then (if is_leap y then 29 else 28)
  else if (m =? 4) || (m =? 6) || (m =? 9) || (m =? 11) then 30
  else 31.

Definition in_range (lo x hi : Z) : bool := (lo <=? x) && (x <=? hi).

(** The range checks of the constructor. *)
Definition fields_ok (y mo d h mi s : Z) : bool :=
  in_range 1 y 9999 && in_range 1 mo 12 && in_range 1 d (days_in_month y mo)
  && in_range 0 h 23 && in_range 0 mi 59 && in_range 0 s 59.

(** [datetime.datetime(year, month, day, hour, minute, second)]:
    [ValueError] when a field is out of range. *)
Definition new (y mo d h mi s : Z) : result t :=
  if fields_ok y mo d h mi s then Ok (mk y mo d h mi s 0)
  else Raise ValueError.

Definition fields (a : t) : list Z :=
  [year a; month a; day a; hour a; minute a; second a; microsecond a].

Fixpoint cmp_fields (xs ys : list Z) : comparison :=
  match xs, ys with
  | [], [] => Eq
  | [], _ :: _ => Lt
  | _ :: _, [] => Gt
  | x :: xs', y :: ys' =>
      match x ?= y with
      | Eq => cmp_fields xs' ys'
      | c => c
      end
  end.

(** Comparison of two naive datetimes: field by field, most significant
    first. *)
Definition cmp (a b : t) : comparison := cmp_fields (fields a) (fields b).

(** [a >= b] *)
Definition ge (a b : t) : bool :=
  match cmp a b with Lt => false | _ => true end.

(** The order the comparison decides. *)
Definition le (a b : t) : Prop := cmp a b <> Gt.
Definition lt (a b : t) : Prop := cmp a b = Lt.

End datetime.

(** ** Name *)

Module Name.

(** One attribute as the constructor reads it: the [type] and [value] of the
    component at position 0 of [attr], both through [str]. *)
Record AttributeTypeAndValue : Type := {
  type : string;
  value : string
}.

Definition _oid2Name : gmap string string :=
  list_to_map [
    ("2.5.4.3", "CN");
    ("2.5.4.6", "C");
    ("2.5.4.7", "L");
    ("2.5.4.8", "ST");
    ("2.5.4.10", "O");
    ("2.5.4.11", "OU");
    ("2.5.4.45", "X500UID");
    ("1.2.840.113549.1.9.1", "email");
    ("2.5.4.17", "zip");
    ("2.5.4.9", "street");
    ("2.5.4.15", "businessCategory");
    ("2.5.4.5", "serialNumber");
    ("2.5.4.43", "initials");
    ("2.5.4.44", "generationQualifier");
    ("2.5.4.4", "surname");
    ("2.5.4.42", "givenName");
    ("2.5.4.12", "title");
    ("2.5.4.46", "dnQualifier");
    ("2.5.4.65", "pseudonym");
    ("0.9.2342.19200300.100.1.25", "DC");
    ("1.3.6.1.4.1.5734.1.2", "Apellido1");
    ("1.3.6.1.4.1.5734.1.3", "Apellido2");
    ("1.3.6.1.4.1.5734.1.1", "Nombre");
    ("1.3.6.1.4.1.5734.1.4", "DNI");
    ("0.9.2342.19200300.100.1.1", "Userid")
  ].

(** The object: its one private dictionary, type name to the values seen. *)
Record t : Type := { __attributes : gmap string (list string) }.

(** [Name._oid2Name.get(type) or type] *)
Definition typeStr (type : string) : string :=
  match _oid2Name !! type with
  | Some name => if String.eqb name "" then type else name
  | None => type
  end.

(** Body of the inner loop. *)
Definition add (attributes : gmap string (list string))
    (attr : AttributeTypeAndValue) : gmap string (list string) :=
  match attributes !! typeStr (type attr) with
  | None => <[typeStr (type attr) := [value attr]]> attributes
  | Some values => <[typeStr (type attr) := (values ++ [value attr])%list]> attributes
  end.

Definition __init__ (name : list (list AttributeTypeAndValue)) : t :=
  {| __attributes :=
       foldl (fun attributes name_part => foldl add attributes name_part)
             ∅ name |}.

(** [self.__attributes.keys()], in the dictionary's own order. *)
Definition keys (self : t) : list string := (map_to_list (__attributes self)).*1.

(** [self.__attributes.get(key)] for a key of the dictionary. *)
Definition get (self : t) (key : string) : list string :=
  default [] (__attributes self !! key).

Definition __str__ (self : t) : string :=
  let valueStrings :=
    (fun key =>
       let values := Py.sorted (get self key) in
       Py.join ", " ((fun value => key +:+ "=" +:+ value) <$> values))
    <$> Py.sorted (keys self) in
  Py.join ", " valueStrings.

(** The attributes a name contributes, in reading order. *)
Definition attributes_read (name : list (list AttributeTypeAndValue))
  : list AttributeTypeAndValue := concat name.

(** The values a list of attributes holds for one key, in reading order. *)
Definition values_for (key : string) (attrs : list AttributeTypeAndValue)
  : list string :=
  value <$> filter (fun a => typeStr (type a) = key) attrs.

End Name.

(** ** ValidityInterval *)

Module ValidityInterval.

(** The component handed to [_getGeneralizedTime]: a value of the [Time]
    CHOICE with the name of its variant and the string it carries, or the
    signingTime attribute value, which has neither [getName] nor
    [getComponent] and is read as [timeComponent[1][0]]. *)
Inductive Time : Type :=
  | Choice (name : string) (component : string)
  | SigningTime (value : string).

Definition getName (timeComponent : Time) : result string :=
  match timeComponent with
  | Choice name _ => Ok name
  | SigningTime _ => Raise AttributeError
  end.

(** [timeComponent.getComponent()._value]; on the signingTime value the
    attribute is missing and the code falls back to [str(timeComponent[1][0])]. *)
Definition getComponent_value (timeComponent : Time) : result string :=
  match timeComponent with
  | Choice _ component => Ok component
  | SigningTime _ => Raise AttributeError
  end.

Definition _getGeneralizedTime (timeComponent : Time) : result string :=
  let name :=
    match getName timeComponent with
    | Ok name => name
    | Raise _ => ""
    end in
  if String.eqb name "generalTime" then
    getComponent_value timeComponent
  else
    let timeValue :=
      match timeComponent with
      | Choice _ component => component
      | SigningTime value => value
      end in
    shortyear ← Py.int (Py.slice_to timeValue 2);
    Ok ((if 50 <=? shortyear then "19" else "20") +:+ timeValue).

Record t : Type := {
  valid_from : string;
  valid_to : string
}.

Definition __init__ (notBefore notAfter : Time) : result t :=
  valid_from ← _getGeneralizedTime notBefore;
  valid_to ← _getGeneralizedTime notAfter;
  Ok {| valid_from := valid_from; valid_to := valid_to |}.

(** The [try] around the seconds field: [ValueError] and [IndexError] give 0. *)
Definition second_field (date : string) : result Z :=
  match Py.int (Py.slice date 12 14) with
  | Ok second => Ok second
  | Raise ValueError => Ok 0
  | Raise IndexError => Ok 0
  | Raise e => Raise e
  end.

Definition parse_date (date : string) : result datetime.t :=
  year ← Py.int (Py.slice_to date 4);
  month ← Py.int (Py.slice date 4 6);
  day ← Py.int (Py.slice date 6 8);
  hour ← Py.int (Py.slice date 8 10);
  minute ← Py.int (Py.slice date 10 12);
  second ← second_field date;
  let second := if 59 <? second then 59 else second in
  datetime.new year month day hour minute second.

Definition get_valid_from_as_datetime (self : t) : result datetime.t :=
  parse_date (valid_from self).

Definition get_valid_to_as_datetime (self : t) : result datetime.t :=
  parse_date (valid_to self).

End ValidityInterval.

(** ** KeyUsageExt *)

Module KeyUsageExt.

Record t : Type := {
  digitalSignature : bool;
  nonRepudiation : bool;
  keyEncipherment : bool;
  dataEncipherment : bool;
  keyAgreement : bool;
  keyCertSign : bool;
  cRLSign : bool;
  encipherOnly : bool;
  decipherOnly : bool
}.

(** The attributes as the constructor first sets them. *)
Definition unset : t :=
  {| digitalSignature := false; nonRepudiation := false;
     keyEncipherment := false; dataEncipherment := false;
     keyAgreement := false; keyCertSign := false; cRLSign := false;
     encipherOnly := false; decipherOnly := false |}.

Definition set_digitalSignature (s : t) : t :=
  {| digitalSignature := true; nonRepudiation := nonRepudiation s;
     keyEncipherment := keyEncipherment s; dataEncipherment := dataEncipherment s;
     keyAgreement := keyAgreement s; keyCertSign := keyCertSign s;
     cRLSign := cRLSign s; encipherOnly := encipherOnly s;
     decipherOnly := decipherOnly s |}.
Definition set_nonRepudiation (s : t) : t :=
  {| digitalSignature := digitalSignature s; nonRepudiation := true;
     keyEncipherment := keyEncipherment s; dataEncipherment := dataEncipherment s;
     keyAgreement := keyAgreement s; keyCertSign := keyCertSign s;
     cRLSign := cRLSign s; encipherOnly := encipherOnly s;
     decipherOnly := decipherOnly s |}.
Definition set_keyEncipherment (s : t) : t :=
  {| digitalSignature := digitalSignature s; nonRepudiation := nonRepudiation s;
     keyEncipherment := true; dataEncipherment := dataEncipherment s;
     keyAgreement := keyAgreement s; keyCertSign := keyCertSign s;
     cRLSign := cRLSign s; encipherOnly := encipherOnly s;
     decipherOnly := decipherOnly s |}.
Definition set_dataEncipherment (s : t) : t :=
  {| digitalSignature := digitalSignature s; nonRepudiation := nonRepudiation s;
     keyEncipherment := keyEncipherment s; dataEncipherment := true;
     keyAgreement := keyAgreement s; keyCertSign := keyCertSign s;
     cRLSign := cRLSign s; encipherOnly := encipherOnly s;
     decipherOnly := decipherOnly s |}.
Definition set_keyAgreement (s : t) : t :=
  {| digitalSignature := digitalSignature s; nonRepudiation := nonRepudiation s;
     keyEncipherment := keyEncipherment s; dataEncipherment := dataEncipherment s;
     keyAgreement := true; keyCertSign := keyCertSign s;
     cRLSign := cRLSign s; encipherOnly := encipherOnly s;
     decipherOnly := decipherOnly s |}.
Definition set_keyCertSign (s : t) : t :=
  {| digitalSignature := digitalSignature s; nonRepudiation := nonRepudiation s;
     keyEncipherment := keyEncipherment s; dataEncipherment := dataEncipherment s;
     keyAgreement := keyAgreement s; keyCertSign := true;
     cRLSign := cRLSign s; encipherOnly := encipherOnly s;
     decipherOnly := decipherOnly s |}.
Definition set_cRLSign (s : t) : t :=
  {| digitalSignature := digitalSignature s; nonRepudiation := nonRepudiation s;
     keyEncipherment := keyEncipherment s; dataEncipherment := dataEncipherment s;
     keyAgreement := keyAgreement s; keyCertSign := keyCertSign s;
     cRLSign := true; encipherOnly := encipherOnly s;
     decipherOnly := decipherOnly s |}.
Definition set_encipherOnly (s : t) : t :=
  {| digitalSignature := digitalSignature s; nonRepudiation := nonRepudiation s;
     keyEncipherment := keyEncipherment s; dataEncipherment := dataEncipherment s;
     keyAgreement := keyAgreement s; keyCertSign := keyCertSign s;
     cRLSign := cRLSign s; encipherOnly := true;
     decipherOnly := decipherOnly s |}.
Definition set_decipherOnly (s : t) : t :=
  {| digitalSignature := digitalSignature s; nonRepudiation := nonRepudiation s;
     keyEncipherment := keyEncipherment s; dataEncipherment := dataEncipherment s;
     keyAgreement := keyAgreement s; keyCertSign := keyCertSign s;
     cRLSign := cRLSign s; encipherOnly := encipherOnly s;
     decipherOnly := true |}.

(** The statements of the [try] block, in order: the position tested and the
    attribute set when the bit there is true. *)
Definition statements : list (nat * (t -> t)) :=
  [ (0%nat, set_digitalSignature);
    (1%nat, set_nonRepudiation);
    (2%nat, set_keyEncipherment);
    (3%nat, set_dataEncipherment);
    (4%nat, set_keyAgreement);
    (5%nat, set_keyCertSign);
    (6%nat, set_cRLSign);
    (7%nat, set_encipherOnly);
    (8%nat, set_decipherOnly) ].

(** Runs [if (bits[i]): self.attr = True] one statement after the other; the
    first exception ends the block and is returned with the object as it
    stands. *)
Fixpoint try_block (stmts : list (nat * (t -> t))) (bits : Py.object)
    (self : t) : t * option exn :=
  match stmts with
  | [] => (self, None)
  | (i, set) :: rest =>
      match Py.getitem bits i with
      | Ok b => try_block rest bits (if negb (b =? 0) then set self else self)
      | Raise e => (self, Some e)
      end
  end.

(** [KeyUsageExt(asn1_keyUsage)], given [asn1_keyUsage._value]. *)
Definition __init__ (bits : Py.object) : result t :=
  match try_block statements bits unset with
  | (self, None) => Ok self
  | (self, Some IndexError) => Ok self
  | (_, Some e) => Raise e
  end.

(** Whether the bit at position [i] is there and set. *)
Definition bit_set (bits : list Z) (i : nat) : bool :=
  match nth_error bits i with
  | Some b => negb (b =? 0)
  | None => false
  end.

End KeyUsageExt.

(** ** Extension: the registry and its dispatch *)

Module ExtensionType.

(** The "enum" of extensions the module knows how to parse. *)
Inductive t : Type :=
  | SUBJ_ALT_NAME
  | AUTH_KEY_ID
  | SUBJ_KEY_ID
  | BASIC_CONSTRAINTS
  | KEY_USAGE
  | EXT_KEY_USAGE
  | CERT_POLICIES
  | CRL_DIST_POINTS
  | STATEMENTS
  | AUTH_INFO_ACCESS
  | POLICY_CONSTRAINTS
  | NAME_CONSTRAINTS
  | NETSCAPE_CERT_TYPE
  | APPLE_SUBMISSION_CERTIFICATE
  | APPLE_DEVELOPMENT_CERTIFICATE
  | MAC_APPLICATION_SOFTWARE_DEVELOPMENT_SIGNING
  | MAC_APPLICATION_SOFTWARE_SUBMISSION_SIGNING.

(** The attribute name each constant stands for. *)
Definition name (e : t) : string :=
  match e with
  | SUBJ_ALT_NAME => "subjAltNameExt"
  | AUTH_KEY_ID => "authKeyIdExt"
  | SUBJ_KEY_ID => "subjKeyIdExt"
  | BASIC_CONSTRAINTS => "basicConstraintsExt"
  | KEY_USAGE => "keyUsageExt"
  | EXT_KEY_USAGE => "extKeyUsageExt"
  | CERT_POLICIES => "certPoliciesExt"
  | CRL_DIST_POINTS => "crlDistPointsExt"
  | STATEMENTS => "statemetsExt"
  | AUTH_INFO_ACCESS => "authInfoAccessExt"
  | POLICY_CONSTRAINTS => "policyConstraintsExt"
  | NAME_CONSTRAINTS => "nameConstraintsExt"
  | NETSCAPE_CERT_TYPE => "netscapeCertTypeExt"
  | APPLE_SUBMISSION_CERTIFICATE => "appleSubmissionCertificateExt"
  | APPLE_DEVELOPMENT_CERTIFICATE => "appleDevelopmentCertificateExt"
  | MAC_APPLICATION_SOFTWARE_DEVELOPMENT_SIGNING =>
      "macApplicationSoftwareDevelopmentSigningExt"
  | MAC_APPLICATION_SOFTWARE_SUBMISSION_SIGNING =>
      "macApplicationSoftwareSubmissionSigningExt"
  end.

End ExtensionType.

Module Extension.

Import ExtensionType.

(** The ASN.1 specifications named in the registry. *)
Inductive Asn1Spec : Type :=
  | GeneralNames
  | KeyId
  | SubjectKeyId
  | BasicConstraints
  | CertificatePolicies
  | CRLDistributionPoints
  | Statements
  | AuthorityInfoAccess
  | ExtendedKeyUsage
  | PolicyConstraints
  | NameConstraints
  | NetscapeCertType.

(** OID: (ASN1Spec, attributeName); the conversion function of an entry is
    [decoderFunction] below, selected by the attribute name. *)
Definition _extensionDecoders : gmap string (option Asn1Spec * ExtensionType.t) :=
  list_to_map [
    ("2.5.29.17", (Some GeneralNames, SUBJ_ALT_NAME));
    ("2.5.29.35", (Some KeyId, AUTH_KEY_ID));
    ("2.5.29.14", (Some SubjectKeyId, SUBJ_KEY_ID));
    ("2.5.29.19", (Some BasicConstraints, BASIC_CONSTRAINTS));
    ("2.5.29.15", (None, KEY_USAGE));
    ("2.5.29.32", (Some CertificatePolicies, CERT_POLICIES));
    ("2.5.29.31", (Some CRLDistributionPoints, CRL_DIST_POINTS));
    ("1.3.6.1.5.5.7.1.3", (Some Statements, STATEMENTS));
    ("1.3.6.1.5.5.7.1.1", (Some AuthorityInfoAccess, AUTH_INFO_ACCESS));
    ("2.5.29.37", (Some ExtendedKeyUsage, EXT_KEY_USAGE));
    ("2.5.29.36", (Some PolicyConstraints, POLICY_CONSTRAINTS));
    ("2.5.29.30", (Some NameConstraints, NAME_CONSTRAINTS));
    ("2.16.840.1.113730.1.1", (Some NetscapeCertType, NETSCAPE_CERT_TYPE));
    ("1.2.840.113635.100.6.1.4", (None, APPLE_SUBMISSION_CERTIFICATE));
    ("1.2.840.113635.100.6.1.2", (None, APPLE_DEVELOPMENT_CERTIFICATE));
    ("1.2.840.113635.100.6.1.12",
       (None, MAC_APPLICATION_SOFTWARE_DEVELOPMENT_SIGNING));
    ("1.2.840.113635.100.6.1.7",
       (None, MAC_APPLICATION_SOFTWARE_SUBMISSION_SIGNING))
  ].

(** The decoded [Extension] SEQUENCE the constructor is given. *)
Record Asn1Extension : Type := {
  extnID : list Z;
  critical : Z;
  extnValue : list Byte.byte
}.

(** What [self.value] holds: the bytes of [extnValue], or the typed result. *)
Inductive ext_value (payload : Type) : Type :=
  | Bytes (raw : list Byte.byte)
  | KeyUsage (usage : KeyUsageExt.t)
  | Typed (p : payload).
Arguments Bytes {payload} raw.
Arguments KeyUsage {payload} usage.
Arguments Typed {payload} p.

Record t (payload : Type) : Type := {
  id : string;
  is_critical : bool;
  ext_type : option ExtensionType.t;
  value : ext_value payload
}.
Arguments id {payload} _.
Arguments is_critical {payload} _.
Arguments ext_type {payload} _.
Arguments value {payload} _.

Section Decoders.

(** The collaborators outside this file: the decoded value trees of the ASN.1
    library, [tuple_to_OID] of the tools module, the decoder, and the
    constructors of the extension classes other than [KeyUsageExt]. *)
Context {asn1 payload : Type}.
Variable tuple_to_OID : list Z -> string.
Variable decode :
  list Byte.byte -> option Asn1Spec -> result (asn1 * list Byte.byte).
Variable _value : asn1 -> Py.object.
Variable convert : ExtensionType.t -> asn1 -> result payload.

(** The conversion function of the registry entry with attribute name
    [extType]. *)
Definition decoderFunction (extType : ExtensionType.t) (v : asn1)
  : result (ext_value payload) :=
  match extType with
  | KEY_USAGE => usage ← KeyUsageExt.__init__ (_value v); Ok (KeyUsage usage)
  | _ => p ← convert extType v; Ok (Typed p)
  end.

Definition __init__ (extension : Asn1Extension) : result (t payload) :=
  let id := tuple_to_OID (extnID extension) in
  let is_critical := negb (critical extension =? 0) in
  let raw := extnValue extension in
  match _extensionDecoders !! id with
  | Some (decoderAsn1Spec, extType) =>
      match (v ← decode raw decoderAsn1Spec; decoderFunction extType v.1) with
      | Ok value =>
          Ok {| id := id; is_critical := is_critical;
                ext_type := Some extType; value := value |}
      | Raise PyAsn1Error =>
          if is_critical then Raise PyAsn1Error
          else Ok {| id := id; is_critical := is_critical;
                     ext_type := None; value := Bytes raw |}
      | Raise e => Raise e
      end
  | None =>
      if is_critical then
        Raise (CertificateError
                 ("Critical extension OID " +:+ id +:+ " not understood"))
      else Ok {| id := id; is_critical := is_critical;
                 ext_type := None; value := Bytes raw |}
  end.

(** The extension object left with the bytes of [extnValue]. *)
Definition kept_raw (extension : Asn1Extension) : t payload :=
  {| id := tuple_to_OID (extnID extension);
     is_critical := negb (critical extension =? 0);
     ext_type := None;
     value := Bytes (extnValue extension) |}.

(** What the [try] block of the constructor evaluates for a registry entry. *)
Definition try_body (extension : Asn1Extension)
    (entry : option Asn1Spec * ExtensionType.t)
  : result (Extension.ext_value payload) :=
  v ← decode (extnValue extension) entry.1;
  decoderFunction entry.2 v.1.

(** [[Extension(ext) for ext in extensions]] *)
Fixpoint comprehension (extensions : list Asn1Extension)
  : result (list (t payload)) :=
  match extensions with
  | [] => Ok []
  | ext :: rest =>
      e ← __init__ ext;
      es ← comprehension rest;
      Ok (e :: es)
  end.

(** [Certificate._create_extensions_list] *)
Definition _create_extensions_list (extensions : option (list Asn1Extension))
  : result (list (t payload)) :=
  match extensions with
  | None => Ok []
  | Some extensions => comprehension extensions
  end.

End Decoders.

End Extension.

(** ** Certificate and X509Certificate: validity at a date *)

Module Certificate.

(** The attributes of the to-be-signed certificate that the validity
    evaluation reads. *)
Record t : Type := {
  serial_number : Z;
  issuer : Name.t;
  validity : ValidityInterval.t
}.

End Certificate.

Module X509Certificate.

(** Dictionaries are objects: a variable or an attribute holds a reference
    into the store, and two references to one dictionary see each other's
    writes. *)
Abbreviation dict := (gmap string Py.value).
Abbreviation loc := positive.
Abbreviation store := (gmap positive (gmap string Py.value)).

Record t : Type := {
  tbsCertificate : Certificate.t;
  verification_results : option loc;
  check_crl : bool
}.

(** Computations that read and write the store and may raise. *)
Definition M (A : Type) : Type := store -> result A * store.

Global Instance M_ret : MRet M := fun A a σ => (Ok a, σ).
Global Instance M_bind : MBind M := fun A B k m σ =>
  match m σ with
  | (Ok a, σ') => k a σ'
  | (Raise e, σ') => (Raise e, σ')
  end.

Definition lift {A} (r : result A) : M A := fun σ => (r, σ).

(** The dictionary a reference points to. *)
Definition read (l : loc) : M dict := fun σ => (Ok (default ∅ (σ !! l)), σ).

(** [dict(d)]: a new dictionary object with the items of [d]. *)
Definition new_dict (d : dict) : M loc := fun σ =>
  let l := fresh (dom σ) in (Ok l, <[l := d]> σ).

(** [results[key] = value] *)
Definition setitem (l : loc) (key : string) (value : Py.value) : M unit :=
  fun σ => (Ok tt, alter (insert key value) l σ).

(** The loop of [_evaluate_verification_results] over [iteritems()]. *)
Fixpoint evaluate_items (items : list (string * Py.value))
    (ignore_missing_crl_check : bool) : bool :=
  match items with
  | [] => true
  | (key, value) :: rest =>
      if Py.truthy value then
        evaluate_items rest ignore_missing_crl_check
      else if ignore_missing_crl_check
              && String.eqb key "CERT_NOT_REVOKED" && Py.is_None value then
        evaluate_items rest ignore_missing_crl_check
      else false
  end.

(** An item the loop lets pass. *)
Definition accepted (ignore_missing_crl_check : bool) (key : string)
    (value : Py.value) : Prop :=
  value = Py.PyBool true
  \/ (key = "CERT_NOT_REVOKED" /\ value = Py.PyNone
      /\ ignore_missing_crl_check = true).

(** [_evaluate_verification_results], on the dictionary its argument refers
    to ([None] when the argument is [None]); it only reads. *)
Definition _evaluate_verification_results (verification_results : option dict)
    (ignore_missing_crl_check : bool) : bool :=
  match verification_results with
  | None => false
  | Some d => evaluate_items (map_to_list d) ignore_missing_crl_check
  end.

(** Every check of [base] other than the two of the date is true. *)
Definition others_true (base : dict) : Prop :=
  forall key value,
    key <> "CERT_TIME_VALIDITY_OK" -> key <> "CERT_NOT_REVOKED" ->
    base !! key = Some value -> value = Py.PyBool true.

(** Follows an optional reference. *)
Definition deref (r : option loc) : M (option dict) :=
  match r with
  | None => mret None
  | Some l => d ← read l; mret (Some d)
  end.

Section Revocation.

(** [CRL_cache_manager.get_cache().certificate_rev_date], the CRL store. *)
Variable certificate_rev_date : string -> Z -> option string.

Definition time_validity_at_date (self : t) (date : datetime.t) : result bool :=
  from_date ←
    ValidityInterval.get_valid_from_as_datetime
      (Certificate.validity (tbsCertificate self));
  to_date ←
    ValidityInterval.get_valid_to_as_datetime
      (Certificate.validity (tbsCertificate self));
  let time_ok := datetime.ge to_date date && datetime.ge date from_date in
  Ok time_ok.

Definition get_revocation_date (self : t) : result (option datetime.t) :=
  let issuer := Name.__str__ (Certificate.issuer (tbsCertificate self)) in
  match certificate_rev_date issuer
          (Certificate.serial_number (tbsCertificate self)) with
  | None => Ok None
  | Some rev_date =>
      if String.eqb rev_date "" then Ok None
      else
        rev_date ← ValidityInterval.parse_date rev_date;
        Ok (Some rev_date)
  end.

Definition crl_validity_at_date (self : t) (date : datetime.t) : result bool :=
  rev_date ← get_revocation_date self;
  match rev_date with
  | None => Ok true
  | Some rev_date => if datetime.ge date rev_date then Ok false else Ok true
  end.

Definition verification_results_at_date (self : t) (date : datetime.t)
  : M (option loc) :=
  match verification_results self with
  | None => mret None
  | Some stored =>
      base ← read stored;
      results ← new_dict base;
      time_ok ← lift (time_validity_at_date self date);
      setitem results "CERT_TIME_VALIDITY_OK" (Py.PyBool time_ok);;
      (if check_crl self then
         not_revoked ← lift (crl_validity_at_date self date);
         setitem results "CERT_NOT_REVOKED" (Py.PyBool not_revoked)
       else
         setitem results "CERT_NOT_REVOKED" Py.PyNone);;
      mret (Some results)
  end.

(** The dictionary a copy of [base] becomes once the two keys of the date are
    written into it. *)
Definition recomputed (self : t) (date : datetime.t) (base : dict)
  : result dict :=
  time_ok ← time_validity_at_date self date;
  not_revoked ←
    (if check_crl self then
       not_revoked ← crl_validity_at_date self date; Ok (Py.PyBool not_revoked)
     else Ok Py.PyNone);
  Ok (<["CERT_NOT_REVOKED" := not_revoked]>
        (<["CERT_TIME_VALIDITY_OK" := Py.PyBool time_ok]> base)).

Definition is_verified (self : t) (ignore_missing_crl_check : bool) : M bool :=
  d ← deref (verification_results self);
  mret (_evaluate_verification_results d ignore_missing_crl_check).

Definition valid_at_date (self : t) (date : datetime.t)
    (ignore_missing_crl_check : bool) : M bool :=
  verification_results ← verification_results_at_date self date;
  d ← deref verification_results;
  mret (_evaluate_verification_results d ignore_missing_crl_check).

End Revocation.

End X509Certificate.

(** ** Reasons: the reason flags of a CRL distribution point *)

Module Reasons.

Record t : Type := {
  unused : bool;
  keyCompromise : bool;
  cACompromise : bool;
  affiliationChanged : bool;
  superseded : bool;
  cessationOfOperation : bool;
  certificateHold : bool;
  privilegeWithdrawn : bool;
  aACompromise : bool
}.

(** The attributes as the constructor first sets them. *)
Definition cleared : t :=
  {| unused := false; keyCompromise := false; cACompromise := false;
     affiliationChanged := false; superseded := false;
     cessationOfOperation := false; certificateHold := false;
     privilegeWithdrawn := false; aACompromise := false |}.

Definition set_unused (s : t) : t :=
  {| unused := true; keyCompromise := keyCompromise s;
     cACompromise := cACompromise s; affiliationChanged := affiliationChanged s;
     superseded := superseded s; cessationOfOperation := cessationOfOperation s;
     certificateHold := certificateHold s;
     privilegeWithdrawn := privilegeWithdrawn s;
     aACompromise := aACompromise s |}.
Definition set_keyCompromise (s : t) : t :=
  {| unused := unused s; keyCompromise := true;
     cACompromise := cACompromise s; affiliationChanged := affiliationChanged s;
     superseded := superseded s; cessationOfOperation := cessationOfOperation s;
     certificateHold := certificateHold s;
     privilegeWithdrawn := privilegeWithdrawn s;
     aACompromise := aACompromise s |}.
Definition set_cACompromise (s : t) : t :=
  {| unused := unused s; keyCompromise := keyCompromise s;
     cACompromise := true; affiliationChanged := affiliationChanged s;
     superseded := superseded s; cessationOfOperation := cessationOfOperation s;
     certificateHold := certificateHold s;
     privilegeWithdrawn := privilegeWithdrawn s;
     aACompromise := aACompromise s |}.
Definition set_affiliationChanged (s : t) : t :=
  {| unused := unused s; keyCompromise := keyCompromise s;
     cACompromise := cACompromise s; affiliationChanged := true;
     superseded := superseded s; cessationOfOperation := cessationOfOperation s;
     certificateHold := certificateHold s;
     privilegeWithdrawn := privilegeWithdrawn s;
     aACompromise := aACompromise s |}.
Definition set_superseded (s : t) : t :=
  {| unused := unused s; keyCompromise := keyCompromise s;
     cACompromise := cACompromise s; affiliationChanged := affiliationChanged s;
     superseded := true; cessationOfOperation := cessationOfOperation s;
     certificateHold := certificateHold s;
     privilegeWithdrawn := privilegeWithdrawn s;
     aACompromise := aACompromise s |}.
Definition set_cessationOfOperation (s : t) : t :=
  {| unused := unused s; keyCompromise := keyCompromise s;
     cACompromise := cACompromise s; affiliationChanged := affiliationChanged s;
     superseded := superseded s; cessationOfOperation := true;
     certificateHold := certificateHold s;
     privilegeWithdrawn := privilegeWithdrawn s;
     aACompromise := aACompromise s |}.
Definition set_certificateHold (s : t) : t :=
  {| unused := unused s; keyCompromise := keyCompromise s;
     cACompromise := cACompromise s; affiliationChanged := affiliationChanged s;
     superseded := superseded s; cessationOfOperation := cessationOfOperation s;
     certificateHold := true;
     privilegeWithdrawn := privilegeWithdrawn s;
     aACompromise := aACompromise s |}.
Definition set_privilegeWithdrawn (s : t) : t :=
  {| unused := unused s; keyCompromise := keyCompromise s;
     cACompromise := cACompromise s; affiliationChanged := affiliationChanged s;
     superseded := superseded s; cessationOfOperation := cessationOfOperation s;
     certificateHold := certificateHold s;
     privilegeWithdrawn := true;
     aACompromise := aACompromise s |}.
Definition set_aACompromise (s : t) : t :=
  {| unused := unused s; keyCompromise := keyCompromise s;
     cACompromise := cACompromise s; affiliationChanged := affiliationChanged s;
     superseded := superseded s; cessationOfOperation := cessationOfOperation s;
     certificateHold := certificateHold s;
     privilegeWithdrawn := privilegeWithdrawn s;
     aACompromise := true |}.

(** The statements of the [try] block, in order. *)
Definition statements : list (nat * (t -> t)) :=
  [ (0%nat, set_unused);
    (1%nat, set_keyCompromise);
    (2%nat, set_cACompromise);
    (3%nat, set_affiliationChanged);
    (4%nat, set_superseded);
    (5%nat, set_cessationOfOperation);
    (6%nat, set_certificateHold);
    (7%nat, set_privilegeWithdrawn);
    (8%nat, set_aACompromise) ].

(** [if (bits[i]): self.attr = True], one statement after the other, up to
    the first exception. *)
Fixpoint try_block (stmts : list (nat * (t -> t))) (bits : Py.object)
    (self : t) : t * option exn :=
  match stmts with
  | [] => (self, None)
  | (i, set) :: rest =>
      match Py.getitem bits i with
      | Ok b => try_block rest bits (if negb (b =? 0) then set self else self)
      | Raise e => (self, Some e)
      end
  end.

(** [Reasons(asn1_rflags)], given [asn1_rflags._value]. *)
Definition __init__ (bits : Py.object) : result t :=
  match try_block statements bits cleared with
  | (self, None) => Ok self
  | (self, Some IndexError) => Ok self
  | (_, Some e) => Raise e
  end.

End Reasons.

(** ** NetscapeCertTypeExt *)

Module NetscapeCertTypeExt.

Record t : Type := {
  clientCert : bool;
  serverCert : bool;
  caCert : bool
}.

(** [len(bits)]: an int has no length. *)
Definition len (bits : Py.object) : result nat :=
  match bits with
  | Py.PyTuple items => Ok (length items)
  | Py.PyInt _ => Raise TypeError
  end.

(** [len(bits) > i and bool(bits[i])] *)
Definition flag (bits : Py.object) (i : nat) : result bool :=
  n ← len bits;
  if (i <? n)%nat then b ← Py.getitem bits i; Ok (negb (b =? 0))
  else Ok false.

(** [NetscapeCertTypeExt(asn1_netscapeCertType)], given its [_value]. *)
Definition __init__ (bits : Py.object) : result t :=
  clientCert ← flag bits 0;
  serverCert ← flag bits 1;
  caCert ← flag bits 5;
  Ok {| clientCert := clientCert; serverCert := serverCert; caCert := caCert |}.

End NetscapeCertTypeExt.

(** ** ExtendedKeyUsageExt *)

Module ExtendedKeyUsageExt.

Definition _keyPurposeAttrs : gmap string string :=
  list_to_map [
    ("1.3.6.1.5.5.7.3.1", "serverAuth");
    ("1.3.6.1.5.5.7.3.2", "clientAuth");
    ("1.3.6.1.5.5.7.3.3", "codeSigning");
    ("1.3.6.1.5.5.7.3.4", "emailProtection");
    ("1.3.6.1.5.5.7.3.5", "ipsecEndSystem");
    ("1.3.6.1.5.5.7.3.6", "ipsecTunnel");
    ("1.3.6.1.5.5.7.3.7", "ipsecUser");
    ("1.3.6.1.5.5.7.3.8", "timeStamping")
  ].

Section Tools.

Variable tuple_to_OID : list Z -> string.

(** [set([tuple_to_OID(usageOID) for usageOID in asn1_extKeyUsage])] *)
Definition usageOIDs (asn1_extKeyUsage : list (list Z)) : gset string :=
  list_to_set (tuple_to_OID <$> asn1_extKeyUsage).

(** [oid in usageOIDs] *)
Definition listed (asn1_extKeyUsage : list (list Z)) (oid : string) : bool :=
  bool_decide (oid ∈ usageOIDs asn1_extKeyUsage).

(** The object is the attributes [setattr] gives it: one per entry of
    [_keyPurposeAttrs], in the order [items()] lists them. *)
Definition __init__ (asn1_extKeyUsage : list (list Z)) : gmap string bool :=
  foldl (fun self item => <[item.2 := listed asn1_extKeyUsage item.1]> self)
        ∅ (map_to_list _keyPurposeAttrs).

End Tools.

End ExtendedKeyUsageExt.

(** ** Attribute of a SignerInfo *)

Module Attribute.

Definition _oid2Name : gmap string string :=
  list_to_map [
    ("1.2.840.113549.1.9.1", "emailAddress");
    ("1.2.840.113549.1.9.2", "unstructuredName");
    ("1.2.840.113549.1.9.3", "contentType");
    ("1.2.840.113549.1.9.4", "messageDigest");
    ("1.2.840.113549.1.9.5", "signingTime");
    ("1.2.840.113549.1.9.6", "counterSignature");
    ("1.2.840.113549.1.9.7", "challengePassword");
    ("1.2.840.113549.1.9.8", "unstructuredAddress");
    ("1.2.840.113549.1.9.16.2.12", "signingCertificate");
    ("2.5.4.5", "serialNumber")
  ].

(** What [self.value] holds: the component at position 0 of the value set
    (kept here as the string [str] shows), or the date of a signingTime. *)
Inductive attr_value : Type :=
  | Component (shown : string)
  | Date (d : datetime.t).

Record t : Type := {
  type : string;
  value : attr_value;
  name : string
}.

(** [Attribute(attribute)], given [str] of the attribute's type and of the
    component at position 0 of its value. *)
Definition __init__ (attribute_type attribute_value : string) : result t :=
  let name := default attribute_type (_oid2Name !! attribute_type) in
  if String.eqb name "signingTime" then
    time ← ValidityInterval._getGeneralizedTime
              (ValidityInterval.SigningTime attribute_value);
    date ← ValidityInterval.parse_date time;
    Ok {| type := attribute_type; value := Date date; name := name |}
  else
    Ok {| type := attribute_type; value := Component attribute_value;
          name := name |}.

End Attribute.

(** ** Certificate: one attribute per known extension *)

Module KnownExtensions.

Global Instance ExtensionType_eq_dec : EqDecision ExtensionType.t.
Proof. solve_decision. Defined.

(** [ExtensionTypes.knownExtensions]: the names of the upper-case attributes
    of [ExtensionType]. *)
Definition knownExtensions : list string :=
  ExtensionType.name <$>
    [ ExtensionType.SUBJ_ALT_NAME; ExtensionType.AUTH_KEY_ID;
      ExtensionType.SUBJ_KEY_ID; ExtensionType.BASIC_CONSTRAINTS;
      ExtensionType.KEY_USAGE; ExtensionType.EXT_KEY_USAGE;
      ExtensionType.CERT_POLICIES; ExtensionType.CRL_DIST_POINTS;
      ExtensionType.STATEMENTS; ExtensionType.AUTH_INFO_ACCESS;
      ExtensionType.POLICY_CONSTRAINTS; ExtensionType.NAME_CONSTRAINTS;
      ExtensionType.NETSCAPE_CERT_TYPE;
      ExtensionType.APPLE_SUBMISSION_CERTIFICATE;
      ExtensionType.APPLE_DEVELOPMENT_CERTIFICATE;
      ExtensionType.MAC_APPLICATION_SOFTWARE_DEVELOPMENT_SIGNING;
      ExtensionType.MAC_APPLICATION_SOFTWARE_SUBMISSION_SIGNING ].

Section Slots.

Context {payload : Type}.

(** The attributes [setattr] gives the certificate, by name. *)
Abbreviation slots := (gmap string (option (Extension.t payload))).

(** [for extAttrName in ExtensionTypes.knownExtensions:
       setattr(self, extAttrName, None)] *)
Definition clear_known (self : slots) : slots :=
  foldl (fun self extAttrName => <[extAttrName := None]> self)
        self knownExtensions.

(** [if ext.ext_type: setattr(self, ext.ext_type, ext)] *)
Definition attach (self : slots) (ext : Extension.t payload) : slots :=
  match Extension.ext_type ext with
  | Some ext_type =>
      if String.eqb (ExtensionType.name ext_type) "" then self
      else <[ExtensionType.name ext_type := Some ext]> self
  | None => self
  end.

(** The last two loops of [Certificate.__init__] over [self.extensions]. *)
Definition known_extension_attributes (extensions : list (Extension.t payload))
  : slots :=
  foldl attach (clear_known ∅) extensions.

(** The extensions of one kind, in the order of the certificate. *)
Definition of_kind (kind : ExtensionType.t)
    (extensions : list (Extension.t payload)) : list (Extension.t payload) :=
  filter (fun ext => Extension.ext_type ext = Some kind) extensions.

End Slots.

End KnownExtensions.

(** ** X509Certificate as its constructor leaves it *)

Module Construction.

(** The attributes [X509Certificate.__init__] sets beside the parsed
    certificate: no verification results yet, CRL checking on. *)
Definition X509Certificate (tbsCertificate : Certificate.t) : X509Certificate.t :=
  {| X509Certificate.tbsCertificate := tbsCertificate;
     X509Certificate.verification_results := None;
     X509Certificate.check_crl := true |}.

End Construction.

(** ** The decoded Name, with every RDN whole *)

Module NameInput.

(** What [attr] is in the loops of [Name.__init__]: one
    RelativeDistinguishedName, the set of its attributes in the order the
    decoder left them. *)
Abbreviation rdn := (list Name.AttributeTypeAndValue).

(** [attr.getComponentByPosition(0)] *)
Definition getComponentByPosition0 (attr : rdn)
  : result Name.AttributeTypeAndValue :=
  match attr with
  | component :: _ => Ok component
  | [] => Raise IndexError
  end.

(** The components the inner loop reads from one part of the name. *)
Fixpoint read_part (name_part : list rdn)
  : result (list Name.AttributeTypeAndValue) :=
  match name_part with
  | [] => Ok []
  | attr :: rest =>
      component ← getComponentByPosition0 attr;
      components ← read_part rest;
      Ok (component :: components)
  end.

Fixpoint read (name : list (list rdn))
  : result (list (list Name.AttributeTypeAndValue)) :=
  match name with
  | [] => Ok []
  | name_part :: rest =>
      components ← read_part name_part;
      parts ← read rest;
      Ok (components :: parts)
  end.

(** [Name(name)] on the decoded value. *)
Definition Name (name : list (list rdn)) : result Name.t :=
  parts ← read name;
  Ok (Name.__init__ parts).

(** [str(Name(name))] *)
Definition Name_str (name : list (list rdn)) : result string :=
  self ← Name name;
  Ok (Name.__str__ self).

(** Every attribute of the name: the (type, value) pairs of all its RDNs. *)
Definition attributes (name : list (list rdn))
  : list Name.AttributeTypeAndValue :=
  concat (concat name).

(** Every RDN of the name holds exactly one attribute. *)
Definition single_valued (name : list (list rdn)) : Prop :=
  Forall (Forall (fun attr : rdn => length attr = 1%nat)) name.

End NameInput.

(** ** PublicKeyInfo *)

Module PublicKeyInfo.

Definition UNKNOWN : Z := -1.
Definition RSA : Z := 0.
Definition DSA : Z := 1.

Record t : Type := {
  alg : string;
  key : gmap string Z;
  algType : Z;
  algName : string
}.

(** The decoded SubjectPublicKeyInfo: [str] of its algorithm, the parameters
    of the algorithm and the bits of the key. *)
Record SubjectPublicKeyInfo (parameters : Type) : Type := {
  algorithm : string;
  algorithm_parameters : parameters;
  subjectPublicKey : list Z
}.
Arguments algorithm {parameters} _.
Arguments algorithm_parameters {parameters} _.
Arguments subjectPublicKey {parameters} _.

Section KeyMaterial.

(** The two extractors of the tools module. *)
Context {parameters : Type}.
Variable get_RSA_pub_key_material : list Z -> result (gmap string Z).
Variable get_DSA_pub_key_material :
  list Z -> parameters -> result (gmap string Z).

Definition __init__ (public_key_info : SubjectPublicKeyInfo parameters)
  : result t :=
  let alg := algorithm public_key_info in
  let bitstr_key := subjectPublicKey public_key_info in
  if String.eqb alg "1.2.840.113549.1.1.1" then
    key ← get_RSA_pub_key_material bitstr_key;
    Ok {| alg := alg; key := key; algType := RSA; algName := "RSA" |}
  else if String.eqb alg "1.2.840.10040.4.1" then
    key ← get_DSA_pub_key_material bitstr_key
            (algorithm_parameters public_key_info);
    Ok {| alg := alg; key := key; algType := DSA; algName := "DSA" |}
  else
    Ok {| alg := alg; key := ∅; algType := UNKNOWN; algName := alg |}.

End KeyMaterial.

End PublicKeyInfo.

(** ** Certificate and X509Certificate: the constructors *)

Module CertificateAssembly.

(** The decoded TBSCertificate. *)
Record TBSCertificate (parameters : Type) : Type := {
  version : Z;
  serialNumber : Z;
  signature : string;
  issuer : list (list NameInput.rdn);
  notBefore : ValidityInterval.Time;
  notAfter : ValidityInterval.Time;
  subject : list (list NameInput.rdn);
  subjectPublicKeyInfo : PublicKeyInfo.SubjectPublicKeyInfo parameters;
  issuerUniqueID : option (list Z);
  subjectUniqueID : option (list Z);
  extensions : option (list Extension.Asn1Extension)
}.
Arguments version {parameters} _.
Arguments serialNumber {parameters} _.
Arguments signature {parameters} _.
Arguments issuer {parameters} _.
Arguments notBefore {parameters} _.
Arguments notAfter {parameters} _.
Arguments subject {parameters} _.
Arguments subjectPublicKeyInfo {parameters} _.
Arguments issuerUniqueID {parameters} _.
Arguments subjectUniqueID {parameters} _.
Arguments extensions {parameters} _.

(** The attributes of a [Certificate] object. *)
Record t (payload : Type) : Type := {
  cert_version : Z;
  serial_number : Z;
  signature_algorithm : string;
  cert_issuer : Name.t;
  validity : ValidityInterval.t;
  cert_subject : Name.t;
  pub_key_info : PublicKeyInfo.t;
  issuer_uid : option (list Byte.byte);
  subject_uid : option (list Byte.byte);
  cert_extensions : list (Extension.t payload);
  known_extensions : gmap string (option (Extension.t payload))
}.
Arguments cert_version {payload} _.
Arguments serial_number {payload} _.
Arguments signature_algorithm {payload} _.
Arguments cert_issuer {payload} _.
Arguments validity {payload} _.
Arguments cert_subject {payload} _.
Arguments pub_key_info {payload} _.
Arguments issuer_uid {payload} _.
Arguments subject_uid {payload} _.
Arguments cert_extensions {payload} _.
Arguments known_extensions {payload} _.

(** The part of it the validity evaluation reads. *)
Definition evaluated {payload} (self : t payload) : Certificate.t :=
  {| Certificate.serial_number := serial_number self;
     Certificate.issuer := cert_issuer self;
     Certificate.validity := validity self |}.

Section Collaborators.

Context {asn1 payload parameters : Type}.
Variable tuple_to_OID : list Z -> string.
Variable decode :
  list Byte.byte -> option Extension.Asn1Spec -> result (asn1 * list Byte.byte).
Variable _value : asn1 -> Py.object.
Variable convert : ExtensionType.t -> asn1 -> result payload.
Variable get_RSA_pub_key_material : list Z -> result (gmap string Z).
Variable get_DSA_pub_key_material :
  list Z -> parameters -> result (gmap string Z).
Variable toOctets : list Z -> list Byte.byte.

(** [uid.toOctets()] when the unique identifier is there and not empty. *)
Definition unique_id (uid : option (list Z)) : option (list Byte.byte) :=
  match uid with
  | None => None
  | Some [] => None
  | Some bits => Some (toOctets bits)
  end.

Definition __init__ (tbsCertificate : TBSCertificate parameters)
  : result (t payload) :=
  issuer ← NameInput.Name (issuer tbsCertificate);
  validity ← ValidityInterval.__init__ (notBefore tbsCertificate)
                                       (notAfter tbsCertificate);
  subject ← NameInput.Name (subject tbsCertificate);
  pub_key_info ←
    PublicKeyInfo.__init__ get_RSA_pub_key_material get_DSA_pub_key_material
      (subjectPublicKeyInfo tbsCertificate);
  extensions ←
    Extension._create_extensions_list tuple_to_OID decode _value convert
      (extensions tbsCertificate);
  Ok {| cert_version := version tbsCertificate;
        serial_number := serialNumber tbsCertificate;
        signature_algorithm := signature tbsCertificate;
        cert_issuer := issuer;
        validity := validity;
        cert_subject := subject;
        pub_key_info := pub_key_info;
        issuer_uid := unique_id (issuerUniqueID tbsCertificate);
        subject_uid := unique_id (subjectUniqueID tbsCertificate);
        cert_extensions := extensions;
        known_extensions :=
          KnownExtensions.known_extension_attributes extensions |}.

End Collaborators.

End CertificateAssembly.

Module X509CertificateAssembly.

(** The decoded, signed certificate. *)
Record SignedCertificate (parameters : Type) : Type := {
  signatureAlgorithm : string;
  signatureValue : list Z;
  tbsCertificate : CertificateAssembly.TBSCertificate parameters
}.
Arguments signatureAlgorithm {parameters} _.
Arguments signatureValue {parameters} _.
Arguments tbsCertificate {parameters} _.

(** The attributes of an [X509Certificate] object; [evaluation] holds the
    ones the validity evaluation works on. *)
Record t (payload : Type) : Type := {
  signature_algorithm : string;
  signature : list Byte.byte;
  certificate : CertificateAssembly.t payload;
  raw_der_data : string;
  evaluation : X509Certificate.t
}.
Arguments signature_algorithm {payload} _.
Arguments signature {payload} _.
Arguments certificate {payload} _.
Arguments raw_der_data {payload} _.
Arguments evaluation {payload} _.

Section Collaborators.

Context {asn1 payload parameters : Type}.
Variable tuple_to_OID : list Z -> string.
Variable decode :
  list Byte.byte -> option Extension.Asn1Spec -> result (asn1 * list Byte.byte).
Variable _value : asn1 -> Py.object.
Variable convert : ExtensionType.t -> asn1 -> result payload.
Variable get_RSA_pub_key_material : list Z -> result (gmap string Z).
Variable get_DSA_pub_key_material :
  list Z -> parameters -> result (gmap string Z).
Variable toOctets : list Z -> list Byte.byte.

Definition __init__ (certificate : SignedCertificate parameters)
  : result (t payload) :=
  tbs ← CertificateAssembly.__init__ tuple_to_OID decode _value convert
          get_RSA_pub_key_material get_DSA_pub_key_material toOctets
          (tbsCertificate certificate);
  Ok {| signature_algorithm := signatureAlgorithm certificate;
        signature := toOctets (signatureValue certificate);
        certificate := tbs;
        raw_der_data := "";
        evaluation :=
          Construction.X509Certificate (CertificateAssembly.evaluated tbs) |}.

End Collaborators.

End X509CertificateAssembly.

(** ** Sample collaborators and inputs for the worked examples *)

Module Sample.

(** Dotted form of an OID tuple. *)
Definition dotted (oid : list Z) : string := Py.join "." (pretty <$> oid).

(** The bits of a content octet, most significant first. *)
Definition bits_of_octet (octet : Z) (count : nat) : list Z :=
  (fun i => if Z.testbit octet (7 - Z.of_nat i) then 1 else 0) <$> seq 0 count.

(** A decoder for the two untyped primitive encodings the examples use: an
    INTEGER with one content octet and a BIT STRING with one content octet;
    anything else is a decoding error. *)
Definition decode (substrate : list Byte.byte) (asn1Spec : option Extension.Asn1Spec)
  : result (Py.object * list Byte.byte) :=
  match asn1Spec, substrate with
  | None, [Byte.x02; Byte.x01; content] =>
      Ok (Py.PyInt (Z.of_N (Byte.to_N content)), [])
  | None, [Byte.x03; Byte.x02; unused; content] =>
      Ok (Py.PyTuple (bits_of_octet (Z.of_N (Byte.to_N content))
                        (8 - N.to_nat (Byte.to_N unused))), [])
  | _, _ => Raise PyAsn1Error
  end.

(** No other extension class is exercised by the examples. *)
Definition convert (extType : ExtensionType.t) (v : Py.object) : result unit :=
  Ok tt.

Definition Extension (extension : Extension.Asn1Extension)
  : result (Extension.t unit) :=
  Extension.__init__ dotted decode (fun v => v) convert extension.

Definition attribute (type value : string) : Name.AttributeTypeAndValue :=
  {| Name.type := type; Name.value := value |}.

(** A certificate valid from 2020-01-01 to 2020-01-11, both at midnight. *)
Definition certificate (stored : option X509Certificate.loc) (check_crl : bool)
  : X509Certificate.t :=
  {| X509Certificate.tbsCertificate :=
       {| Certificate.serial_number := 7;
          Certificate.issuer := Name.__init__ [[attribute "2.5.4.3" "Test CA"]];
          Certificate.validity :=
            {| ValidityInterval.valid_from := "20200101000000Z";
               ValidityInterval.valid_to := "20200111000000Z" |} |};
     X509Certificate.verification_results := stored;
     X509Certificate.check_crl := check_crl |}.

(** One dictionary, left by a verifier, at reference 1. *)
Definition verified : X509Certificate.store :=
  {[ 1%positive := {[ "CERT_SIGNATURE_OK" := Py.PyBool true ]} ]}.

(** A CRL store that knows no revocation. *)
Definition no_revocation (issuer : string) (serial : Z) : option string := None.

(** A CRL store in which certificate 7 of the test CA was revoked on
    2020-01-06 at midnight. *)
Definition revoked_on_the_6th (issuer : string) (serial : Z) : option string :=
  if String.eqb issuer "CN=Test CA" && (serial =? 7)
  then Some "20200106000000Z" else None.

(** A store whose dictionary also holds an old, false time check. *)
Definition verified_stale : X509Certificate.store :=
  {[ 1%positive :=
       <[ "CERT_TIME_VALIDITY_OK" := Py.PyBool false ]>
         {[ "CERT_SIGNATURE_OK" := Py.PyBool true ]} ]}.

(** A certificate whose notBefore is not a date. *)
Definition malformed_certificate : X509Certificate.t :=
  {| X509Certificate.tbsCertificate :=
       {| Certificate.serial_number := 7;
          Certificate.issuer := Name.__init__ [[attribute "2.5.4.3" "Test CA"]];
          Certificate.validity :=
            {| ValidityInterval.valid_from := "2020-01-01";
               ValidityInterval.valid_to := "20200111000000Z" |} |};
     X509Certificate.verification_results := Some 1%positive;
     X509Certificate.check_crl := true |}.

(** Stand-ins for the key-material extractors and for [toOctets]; the sample
    certificates carry a key of an algorithm the module does not know. *)
Definition no_key_material (bits : list Z) : result (gmap string Z) := Ok ∅.
Definition no_key_material_DSA (bits : list Z) (parameters : unit)
  : result (gmap string Z) := Ok ∅.
Definition toOctets (bits : list Z) : list Byte.byte := [].

Definition Certificate
    (tbsCertificate : CertificateAssembly.TBSCertificate unit)
  : result (CertificateAssembly.t unit) :=
  CertificateAssembly.__init__ dotted decode (fun v => v) convert
    no_key_material no_key_material_DSA toOctets tbsCertificate.

Definition X509Certificate
    (certificate : X509CertificateAssembly.SignedCertificate unit)
  : result (X509CertificateAssembly.t unit) :=
  X509CertificateAssembly.__init__ dotted decode (fun v => v) convert
    no_key_material no_key_material_DSA toOctets certificate.

(** A decoded certificate of the test CA with the extensions given. *)
Definition tbs (extensions : list Extension.Asn1Extension)
  : CertificateAssembly.TBSCertificate unit :=
  {| CertificateAssembly.version := 2;
     CertificateAssembly.serialNumber := 7;
     CertificateAssembly.signature := "1.2.840.113549.1.1.11";
     CertificateAssembly.issuer := [[[attribute "2.5.4.3" "Test CA"]]];
     CertificateAssembly.notBefore :=
       ValidityInterval.Choice "utcTime" "200101000000Z";
     CertificateAssembly.notAfter :=
       ValidityInterval.Choice "utcTime" "200111000000Z";
     CertificateAssembly.subject := [[[attribute "2.5.4.3" "leaf"]]];
     CertificateAssembly.subjectPublicKeyInfo :=
       {| PublicKeyInfo.algorithm := "1.2.3.4";
          PublicKeyInfo.algorithm_parameters := tt;
          PublicKeyInfo.subjectPublicKey := [1; 0; 1] |};
     CertificateAssembly.issuerUniqueID := None;
     CertificateAssembly.subjectUniqueID := None;
     CertificateAssembly.extensions := Some extensions |}.


End Sample.

(** * Properties *)

(** ** KeyUsage flags *)

(** C9: every named flag of [KeyUsageExt] is true exactly when the bit at its
    fixed position (0 for digitalSignature .. 8 for decipherOnly) is present
    and set; a bit string shorter than nine bits does not fail and leaves the
    flags at and beyond the missing positions false; the 3-bit value [1,0,1]
    gives digitalSignature and keyEncipherment only. *)
Theorem KeyUsageExt_flags_by_position (bits : list Z) :
  KeyUsageExt.__init__ (Py.PyTuple bits)
  = Ok {| KeyUsageExt.digitalSignature := KeyUsageExt.bit_set bits 0;
          KeyUsageExt.nonRepudiation := KeyUsageExt.bit_set bits 1;
          KeyUsageExt.keyEncipherment := KeyUsageExt.bit_set bits 2;
          KeyUsageExt.dataEncipherment := KeyUsageExt.bit_set bits 3;
          KeyUsageExt.keyAgreement := KeyUsageExt.bit_set bits 4;
          KeyUsageExt.keyCertSign := KeyUsageExt.bit_set bits 5;
          KeyUsageExt.cRLSign := KeyUsageExt.bit_set bits 6;
          KeyUsageExt.encipherOnly := KeyUsageExt.bit_set bits 7;
          KeyUsageExt.decipherOnly := KeyUsageExt.bit_set bits 8 |}
  /\ (forall i : nat,
        KeyUsageExt.bit_set bits i = true
        <-> exists b, nth_error bits i = Some b /\ b <> 0)
  /\ (forall i : nat,
        (length bits <= i)%nat -> KeyUsageExt.bit_set bits i = false)
  /\ KeyUsageExt.__init__ (Py.PyTuple [1; 0; 1])
     = Ok {| KeyUsageExt.digitalSignature := true;
             KeyUsageExt.nonRepudiation := false;
             KeyUsageExt.keyEncipherment := true;
             KeyUsageExt.dataEncipherment := false;
             KeyUsageExt.keyAgreement := false;
             KeyUsageExt.keyCertSign := false;
             KeyUsageExt.cRLSign := false;
             KeyUsageExt.encipherOnly := false;
             KeyUsageExt.decipherOnly := false |}.
Proof.
  split; [| split; [| split]].
  - unfold KeyUsageExt.__init__, KeyUsageExt.bit_set.
    do 9 (destruct bits as [| ? bits];
          [ cbn; repeat (match goal with
                         | |- context [negb (?b =? 0)] =>
                             destruct (negb (b =? 0))
                         end; cbn); reflexivity |]).
    cbn.
    repeat (match goal with
            | |- context [negb (?b =? 0)] => destruct (negb (b =? 0))
            end; cbn); reflexivity.
  - intros i. unfold KeyUsageExt.bit_set.
    destruct (nth_error bits i) as [b |] eqn:E.
    + rewrite negb_true_iff, Z.eqb_neq. split.
      * intros Hb. exists b. auto.
      * intros (b' & Hb' & Hne). congruence.
    + split; [discriminate | intros (b & Hb & _); discriminate].
  - intros i Hi. unfold KeyUsageExt.bit_set.
    apply nth_error_None in Hi. rewrite Hi. reflexivity.
  - reflexivity.
Qed.

(** ** Extension: the error policy of the registry *)

Section ExtensionPolicy.

Context {asn1 payload parameters : Type}.
Variable tuple_to_OID : list Z -> string.
Variable decode :
  list Byte.byte -> option Extension.Asn1Spec -> result (asn1 * list Byte.byte).
Variable _value : asn1 -> Py.object.
Variable convert : ExtensionType.t -> asn1 -> result payload.
Variable get_RSA_pub_key_material : list Z -> result (gmap string Z).
Variable get_DSA_pub_key_material :
  list Z -> parameters -> result (gmap string Z).
Variable toOctets : list Z -> list Byte.byte.

Let Extension_init := Extension.__init__ tuple_to_OID decode _value convert.
Let create_extensions_list :=
  Extension._create_extensions_list tuple_to_OID decode _value convert.
Let kept_raw := @Extension.kept_raw payload tuple_to_OID.
Let try_body := Extension.try_body decode _value convert.


(** C1: when the OID of a decoded extension is absent from the registry, a
    critical extension makes the constructor raise [CertificateError], and a
    non-critical one is built with [value] the bytes of [extnValue] and
    [ext_type] unset. *)
Theorem Extension_unknown_oid (extension : Extension.Asn1Extension) :
  Extension._extensionDecoders !! tuple_to_OID (Extension.extnID extension) = None ->
  (Extension.critical extension <> 0 ->
     exists msg, Extension_init extension = Raise (CertificateError msg))
  /\ (Extension.critical extension = 0 ->
        Extension_init extension = Ok (kept_raw extension)
        /\ Extension.is_critical (kept_raw extension) = false
        /\ Extension.ext_type (kept_raw extension) = None
        /\ Extension.value (kept_raw extension)
           = Extension.Bytes (Extension.extnValue extension)).
Proof.
  intros Habsent. unfold Extension_init, Extension.__init__, kept_raw, Extension.kept_raw.
  rewrite Habsent. split.
  - intros Hc. apply Z.eqb_neq in Hc. rewrite Hc. cbn. eauto.
  - intros Hc. rewrite Hc. cbn. auto.
Qed.






End ExtensionPolicy.

(** The constructor on an OID outside the registry, critical and not. *)
Lemma Extension_unknown_oid_witness :
  let critical_ext :=
    {| Extension.extnID := [1; 2; 3; 4]; Extension.critical := 1;
       Extension.extnValue := [Byte.x05; Byte.x00] |} in
  let optional_ext :=
    {| Extension.extnID := [1; 2; 3; 4]; Extension.critical := 0;
       Extension.extnValue := [Byte.x05; Byte.x00] |} in
  Extension._extensionDecoders !! Sample.dotted [1; 2; 3; 4] = None
  /\ (exists msg, Sample.Extension critical_ext = Raise (CertificateError msg))
  /\ Sample.Extension optional_ext
     = Ok {| Extension.id := "1.2.3.4"; Extension.is_critical := false;
             Extension.ext_type := None;
             Extension.value := Extension.Bytes [Byte.x05; Byte.x00] |}.
Proof.
  intros critical_ext optional_ext.
  assert (Habsent : Extension._extensionDecoders !! Sample.dotted [1; 2; 3; 4]
                    = None) by (vm_compute; reflexivity).
  split; [exact Habsent | split].
  - apply (Extension_unknown_oid Sample.dotted Sample.decode (fun v => v)
             Sample.convert critical_ext Habsent).
    cbn. lia.
  - apply (Extension_unknown_oid Sample.dotted Sample.decode (fun v => v)
             Sample.convert optional_ext Habsent).
    reflexivity.
Defined.



(** ** Aggregate evaluation of a verification-result dictionary *)

Lemma evaluate_items_Forall items ignore :
  X509Certificate.evaluate_items items ignore = true
  <-> Forall (fun item => X509Certificate.accepted ignore item.1 item.2) items.
Proof.
  induction items as [| [key value] rest IH]; cbn.
  - split; [constructor | reflexivity].
  - rewrite Forall_cons. cbn. unfold X509Certificate.accepted at 1.
    destruct value as [| [|]]; cbn.
    + rewrite andb_true_r.
      destruct ignore; cbn.
      * destruct (String.eqb_spec key "CERT_NOT_REVOKED") as [-> | Hne].
        -- rewrite IH. intuition.
        -- split; [discriminate |].
           intros [[? | (? & _)] _]; [discriminate | contradiction].
      * split; [discriminate |].
        intros [[? | (_ & _ & ?)] _]; discriminate.
    + rewrite IH. intuition.
    + rewrite andb_false_r. split; [discriminate |].
      intros [[? | (_ & ? & _)] _]; discriminate.
Qed.

Lemma evaluate_dict (d : gmap string Py.value) ignore :
  X509Certificate._evaluate_verification_results (Some d) ignore = true
  <-> forall key value,
        d !! key = Some value -> X509Certificate.accepted ignore key value.
Proof.
  cbn. rewrite evaluate_items_Forall, Forall_forall. split.
  - intros H key value Hkv.
    apply (H (key, value)). apply elem_of_map_to_list. exact Hkv.
  - intros H [key value] Hin. cbn. apply H.
    apply elem_of_map_to_list in Hin. exact Hin.
Qed.

(** C4: the aggregate evaluation is [False] for an absent ([None]) map, and
    for a map it is [True] exactly when every entry is true, an unset
    CERT_NOT_REVOKED entry being let through when, and only when,
    [ignore_missing_crl_check] is passed. *)
Theorem evaluate_verification_results_policy (ignore_missing_crl_check : bool) :
  X509Certificate._evaluate_verification_results None ignore_missing_crl_check
  = false
  /\ forall d : gmap string Py.value,
       X509Certificate._evaluate_verification_results (Some d)
         ignore_missing_crl_check = true
       <-> forall key value,
             d !! key = Some value ->
             value = Py.PyBool true
             \/ (key = "CERT_NOT_REVOKED" /\ value = Py.PyNone
                 /\ ignore_missing_crl_check = true).
Proof.
  split; [reflexivity |].
  intros d. apply evaluate_dict.
Qed.

(** ** ValidityInterval: year expansion and date parsing *)

Lemma digit_of_cases c d :
  Py.digit_of c = Some d ->
  (c, d) ∈ [ ("0"%char, 0); ("1"%char, 1); ("2"%char, 2); ("3"%char, 3);
             ("4"%char, 4); ("5"%char, 5); ("6"%char, 6); ("7"%char, 7);
             ("8"%char, 8); ("9"%char, 9) ].
Proof.
  destruct c as [[] [] [] [] [] [] [] []]; vm_compute; intros H;
    first [discriminate H | injection H as <-; set_solver].
Qed.

(** [int] of two decimal digits. *)
Lemma int_two_digits a b x y :
  Py.digit_of a = Some x -> Py.digit_of b = Some y ->
  Py.int (String a (String b EmptyString)) = Ok (10 * x + y).
Proof.
  intros Ha Hb.
  apply digit_of_cases in Ha. apply digit_of_cases in Hb.
  repeat (apply elem_of_cons in Ha as [Ha | Ha];
          [injection Ha as -> -> |]); [.. | inversion Ha];
  repeat (apply elem_of_cons in Hb as [Hb | Hb];
          [injection Hb as -> ->; vm_compute; reflexivity |]);
  inversion Hb.
Qed.

(** [int] raises nothing but [ValueError]. *)
Lemma int_raises_ValueError s e : Py.int s = Raise e -> e = ValueError.
Proof.
  assert (Hu : forall r e', Py.unsigned r = Raise e' -> e' = ValueError).
  { intros r e'. unfold Py.unsigned.
    destruct r; [congruence |]. destruct (Py.digits 0 _); congruence. }
  unfold Py.int.
  destruct (Py.rstrip (Py.lstrip s)) as [| c r]; [apply Hu |].
  destruct c as [[] [] [] [] [] [] [] []]; try apply Hu.
  cbn. destruct (Py.unsigned r) eqn:E; cbn; [discriminate |].
  intros [= <-]. eapply Hu; eauto.
Qed.

(** C7: [_getGeneralizedTime] returns a generalized-time string as it is, and
    puts "19" before a UTC-time string whose two leading digits are at least
    50 and "20" otherwise; "500101120000Z" becomes a date of 1950 and
    "491231235959Z" one of 2049. *)
Theorem getGeneralizedTime_year_expansion :
  (forall s : string,
     ValidityInterval._getGeneralizedTime
       (ValidityInterval.Choice "generalTime" s) = Ok s)
  /\ (forall (name : string) (a b : ascii) (rest : string) (x y : Z),
        name <> "generalTime" ->
        Py.digit_of a = Some x -> Py.digit_of b = Some y ->
        ValidityInterval._getGeneralizedTime
          (ValidityInterval.Choice name (String a (String b rest)))
        = Ok ((if 50 <=? 10 * x + y then "19" else "20")
              +:+ String a (String b rest)))
  /\ ValidityInterval._getGeneralizedTime
       (ValidityInterval.Choice "utcTime" "500101120000Z")
     = Ok "19500101120000Z"
  /\ ValidityInterval.parse_date "19500101120000Z"
     = Ok (datetime.mk 1950 1 1 12 0 0 0)
  /\ ValidityInterval._getGeneralizedTime
       (ValidityInterval.Choice "utcTime" "491231235959Z")
     = Ok "20491231235959Z"
  /\ ValidityInterval.parse_date "20491231235959Z"
     = Ok (datetime.mk 2049 12 31 23 59 59 0).
Proof.
  split; [| split; [| repeat split; vm_compute; reflexivity]].
  - intros s. reflexivity.
  - intros name a b rest x y Hname Ha Hb.
    unfold ValidityInterval._getGeneralizedTime. cbn [ValidityInterval.getName].
    apply String.eqb_neq in Hname. rewrite Hname.
    assert (Hslice : Py.slice_to (String a (String b rest)) 2
                     = String a (String b EmptyString))
      by (destruct rest; reflexivity).
    rewrite Hslice, (int_two_digits a b x y Ha Hb). reflexivity.
Qed.

(** C8: for a date string whose year, month, day, hour and minute fields are
    numeric (and name a date of the calendar), [parse_date] clamps a seconds
    value above 59 to 59 instead of rejecting it, and gives second 0 when the
    seconds field is absent or not a number; in particular a 12-character
    YYYYMMDDHHMM string parses with second 0. *)
Theorem parse_date_seconds_tolerance
    (date : string) (year month day hour minute : Z) :
  Py.int (Py.slice_to date 4) = Ok year ->
  Py.int (Py.slice date 4 6) = Ok month ->
  Py.int (Py.slice date 6 8) = Ok day ->
  Py.int (Py.slice date 8 10) = Ok hour ->
  Py.int (Py.slice date 10 12) = Ok minute ->
  datetime.fields_ok year month day hour minute 0 = true ->
  (forall second : Z,
     Py.int (Py.slice date 12 14) = Ok second -> 59 < second ->
     ValidityInterval.parse_date date
     = Ok (datetime.mk year month day hour minute 59 0))
  /\ (forall e : exn,
        Py.int (Py.slice date 12 14) = Raise e ->
        ValidityInterval.parse_date date
        = Ok (datetime.mk year month day hour minute 0 0))
  /\ (String.length date = 12%nat ->
        ValidityInterval.parse_date date
        = Ok (datetime.mk year month day hour minute 0 0)).
Proof.
  intros Hy Hmo Hd Hh Hmi Hok.
  assert (Hok59 : datetime.fields_ok year month day hour minute 59 = true).
  { unfold datetime.fields_ok in *.
    apply andb_prop in Hok as [Hok _].
    rewrite Hok. reflexivity. }
  assert (Hraise : forall e, Py.int (Py.slice date 12 14) = Raise e ->
            ValidityInterval.parse_date date
            = Ok (datetime.mk year month day hour minute 0 0)).
  { intros e He. pose proof (int_raises_ValueError _ _ He) as ->.
    unfold ValidityInterval.parse_date, ValidityInterval.second_field.
    rewrite Hy, Hmo, Hd, Hh, Hmi, He. cbn.
    unfold datetime.new. rewrite Hok. reflexivity. }
  split; [| split].
  - intros second Hs Hgt.
    unfold ValidityInterval.parse_date, ValidityInterval.second_field.
    rewrite Hy, Hmo, Hd, Hh, Hmi, Hs. cbn.
    apply Z.ltb_lt in Hgt. rewrite Hgt.
    unfold datetime.new. rewrite Hok59. reflexivity.
  - exact Hraise.
  - intros Hlen. apply (Hraise ValueError).
    do 12 (destruct date as [| ? date]; [discriminate Hlen |]).
    destruct date; [reflexivity | discriminate Hlen].
Qed.

(** Seconds "61" parse to second 59; a date without seconds to second 0. *)
Lemma parse_date_seconds_tolerance_witness :
  ValidityInterval.parse_date "20200101123061Z"
  = Ok (datetime.mk 2020 1 1 12 30 59 0)
  /\ ValidityInterval.parse_date "2020010112305xZ"
     = Ok (datetime.mk 2020 1 1 12 30 0 0)
  /\ ValidityInterval.parse_date "202001011230"
     = Ok (datetime.mk 2020 1 1 12 30 0 0).
Proof.
  split; [| split].
  - apply (parse_date_seconds_tolerance "20200101123061Z" 2020 1 1 12 30
             eq_refl eq_refl eq_refl eq_refl eq_refl eq_refl) with (second := 61);
      [reflexivity | lia].
  - apply (parse_date_seconds_tolerance "2020010112305xZ" 2020 1 1 12 30
             eq_refl eq_refl eq_refl eq_refl eq_refl eq_refl)
      with (e := ValueError).
    reflexivity.
  - apply (parse_date_seconds_tolerance "202001011230" 2020 1 1 12 30
             eq_refl eq_refl eq_refl eq_refl eq_refl eq_refl).
    reflexivity.
Defined.

(** ** Time validity at a date *)

Lemma cmp_fields_antisym xs ys :
  datetime.cmp_fields xs ys = CompOpp (datetime.cmp_fields ys xs).
Proof.
  revert ys. induction xs as [| x xs IH]; intros [| y ys]; cbn; try reflexivity.
  rewrite (Z.compare_antisym y x).
  destruct (y ?= x); cbn; auto.
Qed.

Lemma cmp_fields_refl xs : datetime.cmp_fields xs xs = Eq.
Proof.
  induction xs as [| x xs IH]; cbn; [reflexivity |].
  rewrite Z.compare_refl. exact IH.
Qed.

Lemma datetime_ge_le a b : datetime.ge a b = true <-> datetime.le b a.
Proof.
  unfold datetime.ge, datetime.le, datetime.cmp.
  rewrite (cmp_fields_antisym (datetime.fields b) (datetime.fields a)).
  destruct (datetime.cmp_fields (datetime.fields a) (datetime.fields b));
    cbn; split; congruence.
Qed.

Lemma datetime_le_refl a : datetime.le a a.
Proof. unfold datetime.le, datetime.cmp. rewrite cmp_fields_refl. discriminate. Qed.

Lemma datetime_lt_not_le a b : datetime.lt a b -> ~ datetime.le b a.
Proof.
  unfold datetime.lt, datetime.le, datetime.cmp. intros Hlt Hle.
  rewrite cmp_fields_antisym, Hlt in Hle. apply Hle. reflexivity.
Qed.

(** C6: when both ends of the validity interval parse,
    [time_validity_at_date] returns true exactly when
    valid_from <= date <= valid_to. Both ends are included: at valid_from
    and at valid_to of an interval that is not empty the answer is true, and
    at any date before valid_from or after valid_to it is false. *)
Theorem time_validity_at_date_inclusive
    (self : X509Certificate.t) (date from_date to_date : datetime.t) :
  ValidityInterval.parse_date
    (ValidityInterval.valid_from
       (Certificate.validity (X509Certificate.tbsCertificate self)))
  = Ok from_date ->
  ValidityInterval.parse_date
    (ValidityInterval.valid_to
       (Certificate.validity (X509Certificate.tbsCertificate self)))
  = Ok to_date ->
  (exists time_ok : bool,
     X509Certificate.time_validity_at_date self date = Ok time_ok
     /\ (time_ok = true
         <-> datetime.le from_date date /\ datetime.le date to_date)
     /\ (datetime.lt date from_date -> time_ok = false)
     /\ (datetime.lt to_date date -> time_ok = false))
  /\ (datetime.le from_date to_date ->
        X509Certificate.time_validity_at_date self from_date = Ok true
        /\ X509Certificate.time_validity_at_date self to_date = Ok true).
Proof.
  intros Hfrom Hto.
  assert (Hrun : forall d,
            X509Certificate.time_validity_at_date self d
            = Ok (datetime.ge to_date d && datetime.ge d from_date)).
  { intros d. unfold X509Certificate.time_validity_at_date,
      ValidityInterval.get_valid_from_as_datetime,
      ValidityInterval.get_valid_to_as_datetime.
    rewrite Hfrom, Hto. reflexivity. }
  assert (Hiff : forall d,
            datetime.ge to_date d && datetime.ge d from_date = true
            <-> datetime.le from_date d /\ datetime.le d to_date).
  { intros d. rewrite andb_true_iff, !datetime_ge_le. tauto. }
  split.
  - exists (datetime.ge to_date date && datetime.ge date from_date).
    split; [apply Hrun | split; [apply Hiff | split]].
    + intros Hlt. apply not_true_is_false. intros Htrue.
      apply Hiff in Htrue as [Hle _].
      exact (datetime_lt_not_le _ _ Hlt Hle).
    + intros Hlt. apply not_true_is_false. intros Htrue.
      apply Hiff in Htrue as [_ Hle].
      exact (datetime_lt_not_le _ _ Hlt Hle).
  - intros Hle. rewrite !Hrun. split; f_equal; apply Hiff; split;
      auto using datetime_le_refl.
Qed.

(** A certificate valid from 2020-01-01 to 2020-01-11, asked at both ends,
    one second before the first and one second after the last. *)
Lemma time_validity_at_date_inclusive_witness :
  let self := Sample.certificate None true in
  X509Certificate.time_validity_at_date self (datetime.mk 2020 1 1 0 0 0 0)
  = Ok true
  /\ X509Certificate.time_validity_at_date self (datetime.mk 2020 1 11 0 0 0 0)
     = Ok true
  /\ X509Certificate.time_validity_at_date self (datetime.mk 2019 12 31 23 59 59 0)
     = Ok false
  /\ X509Certificate.time_validity_at_date self (datetime.mk 2020 1 11 0 0 1 0)
     = Ok false.
Proof.
  intros self.
  pose proof (time_validity_at_date_inclusive self
                (datetime.mk 2019 12 31 23 59 59 0)
                (datetime.mk 2020 1 1 0 0 0 0) (datetime.mk 2020 1 11 0 0 0 0)
                eq_refl eq_refl) as [(before & Hbefore & _ & Hlt & _) Hends].
  pose proof (time_validity_at_date_inclusive self
                (datetime.mk 2020 1 11 0 0 1 0)
                (datetime.mk 2020 1 1 0 0 0 0) (datetime.mk 2020 1 11 0 0 0 0)
                eq_refl eq_refl) as [(after & Hafter & _ & _ & Hgt) _].
  destruct Hends as [Hfrom Hto]; [vm_compute; discriminate |].
  rewrite <- (Hlt eq_refl) at 1. rewrite <- (Hgt eq_refl).
  auto.
Defined.

(** ** Name: the canonical string does not depend on the order of the input *)

Lemma ascii_compare_lt_trans a b c :
  Ascii.compare a b = Lt -> Ascii.compare b c = Lt -> Ascii.compare a c = Lt.
Proof.
  unfold Ascii.compare. rewrite !N.compare_lt_iff. apply N.lt_trans.
Qed.

Lemma string_compare_lt_trans s1 : forall s2 s3,
  String.compare s1 s2 = Lt -> String.compare s2 s3 = Lt ->
  String.compare s1 s3 = Lt.
Proof.
  induction s1 as [| c1 s1 IH]; intros [| c2 s2] [| c3 s3]; cbn;
    try congruence.
  destruct (Ascii.compare c1 c2) eqn:E12; try discriminate;
    destruct (Ascii.compare c2 c3) eqn:E23; try discriminate; intros H12 H23.
  - apply Ascii.compare_eq_iff in E12 as ->. rewrite E23. eauto.
  - apply Ascii.compare_eq_iff in E12 as ->. rewrite E23. reflexivity.
  - apply Ascii.compare_eq_iff in E23 as <-. rewrite E12. reflexivity.
  - rewrite (ascii_compare_lt_trans _ _ _ E12 E23). reflexivity.
Qed.

Lemma str_le_cases a b : Py.str_le a b <-> String.compare a b = Lt \/ a = b.
Proof.
  unfold Py.str_le, String.leb. split.
  - destruct (String.compare a b) eqn:E; try discriminate; intros _.
    + right. apply String.compare_eq_iff. exact E.
    + left. reflexivity.
  - intros [-> | ->]; [reflexivity |].
    destruct (String.compare b b) eqn:E; try reflexivity.
    pose proof (String.compare_antisym b b) as H. rewrite E in H.
    discriminate H.
Qed.

Global Instance str_le_trans : Transitive Py.str_le.
Proof.
  intros a b c. rewrite !str_le_cases.
  intros [Hab | ->] [Hbc | ->]; auto.
  left. eapply string_compare_lt_trans; eauto.
Qed.

Global Instance str_le_antisym : AntiSymm (=) Py.str_le.
Proof. intros a b. apply String.leb_antisym. Qed.

Global Instance str_le_total : Total Py.str_le.
Proof. intros a b. apply String.leb_total. Qed.

(** [sorted] puts the elements in order and loses none. *)
Lemma sorted_Sorted l : Sorted Py.str_le (Py.sorted l).
Proof. apply Sorted_merge_sort; apply _. Qed.

Lemma sorted_Permutation l : Py.sorted l ≡ₚ l.
Proof. apply merge_sort_Permutation. Qed.

(** Two lists with the same elements sort to the same list. *)
Lemma sorted_perm l1 l2 : l1 ≡ₚ l2 -> Py.sorted l1 = Py.sorted l2.
Proof.
  intros Hperm. apply (Sorted_unique Py.str_le); try apply sorted_Sorted.
  rewrite !sorted_Permutation. exact Hperm.
Qed.

Lemma values_for_perm key attrs1 attrs2 :
  attrs1 ≡ₚ attrs2 -> Name.values_for key attrs1 ≡ₚ Name.values_for key attrs2.
Proof. intros H. unfold Name.values_for. rewrite H. reflexivity. Qed.

Lemma values_for_cons key a attrs :
  Name.values_for key (a :: attrs)
  = if decide (Name.typeStr (Name.type a) = key)
    then Name.value a :: Name.values_for key attrs
    else Name.values_for key attrs.
Proof.
  unfold Name.values_for. rewrite filter_cons.
  destruct (decide _); reflexivity.
Qed.

(** The dictionary after the loop has read [attrs]. *)
Lemma foldl_add_lookup attrs : forall (m : gmap string (list string)) key,
  foldl Name.add m attrs !! key
  = match Name.values_for key attrs with
    | [] => m !! key
    | vs => Some (default [] (m !! key) ++ vs)%list
    end.
Proof.
  induction attrs as [| a attrs IH]; intros m key; [reflexivity |].
  cbn [foldl]. rewrite IH, values_for_cons. unfold Name.add.
  destruct (decide (Name.typeStr (Name.type a) = key)) as [<- | Hne].
  - destruct (m !! Name.typeStr (Name.type a)) as [old |] eqn:Hm;
      rewrite lookup_insert_eq; cbn;
      destruct (Name.values_for _ attrs); cbn; rewrite <- ?app_assoc; reflexivity.
  - destruct (m !! Name.typeStr (Name.type a));
      rewrite lookup_insert_ne by exact Hne; reflexivity.
Qed.

Lemma Name_init_foldl name :
  Name.__attributes (Name.__init__ name)
  = foldl Name.add ∅ (Name.attributes_read name).
Proof.
  unfold Name.__init__, Name.attributes_read. cbn.
  generalize (∅ : gmap string (list string)).
  induction name as [| part name IH]; intros m; cbn; [reflexivity |].
  rewrite foldl_app. apply IH.
Qed.

Lemma Name_lookup name key :
  Name.__attributes (Name.__init__ name) !! key
  = match Name.values_for key (Name.attributes_read name) with
    | [] => None
    | vs => Some vs
    end.
Proof.
  rewrite Name_init_foldl, foldl_add_lookup, lookup_empty. reflexivity.
Qed.

Lemma Name_get name key :
  Name.get (Name.__init__ name) key
  = Name.values_for key (Name.attributes_read name).
Proof.
  unfold Name.get. rewrite Name_lookup.
  destruct (Name.values_for _ _); reflexivity.
Qed.

Lemma Name_keys_perm name1 name2 :
  Name.attributes_read name1 ≡ₚ Name.attributes_read name2 ->
  Name.keys (Name.__init__ name1) ≡ₚ Name.keys (Name.__init__ name2).
Proof.
  intros Hperm. unfold Name.keys.
  apply NoDup_Permutation; try apply NoDup_fst_map_to_list.
  intros key. rewrite !list_elem_of_fmap.
  assert (Hsame : forall v,
            Name.__attributes (Name.__init__ name1) !! key = Some v ->
            exists v', Name.__attributes (Name.__init__ name2) !! key = Some v').
  { intros v. rewrite !Name_lookup.
    pose proof (values_for_perm key _ _ Hperm) as Hv.
    destruct (Name.values_for key (Name.attributes_read name1)) as [| x xs];
      [discriminate |].
    destruct (Name.values_for key (Name.attributes_read name2)) as [| y ys].
    - apply Permutation_nil_r in Hv. discriminate.
    - eauto. }
  assert (Hsame' : forall v,
            Name.__attributes (Name.__init__ name2) !! key = Some v ->
            exists v', Name.__attributes (Name.__init__ name1) !! key = Some v').
  { intros v. rewrite !Name_lookup.
    pose proof (values_for_perm key _ _ Hperm) as Hv.
    destruct (Name.values_for key (Name.attributes_read name2)) as [| x xs];
      [discriminate |].
    destruct (Name.values_for key (Name.attributes_read name1)) as [| y ys].
    - apply Permutation_nil_l in Hv. discriminate.
    - eauto. }
  split; intros ([k v] & -> & Hin); cbn;
    apply elem_of_map_to_list in Hin;
    [apply Hsame in Hin as [v' Hv'] | apply Hsame' in Hin as [v' Hv']];
    exists (k, v'); split; auto; apply elem_of_map_to_list; exact Hv'.
Qed.

(** The string of a name, written from the attributes read. *)
Lemma Name_str_render name :
  Name.__str__ (Name.__init__ name)
  = Py.join ", "
      ((fun key =>
          Py.join ", "
            ((fun value => key +:+ "=" +:+ value)
             <$> Py.sorted (Name.values_for key (Name.attributes_read name))))
       <$> Py.sorted (Name.keys (Name.__init__ name))).
Proof.
  unfold Name.__str__. f_equal. apply list_fmap_ext.
  intros _ key _. rewrite Name_get. reflexivity.
Qed.

Lemma Name_keys_elem name key :
  key ∈ Name.keys (Name.__init__ name)
  <-> exists a, a ∈ Name.attributes_read name
                /\ Name.typeStr (Name.type a) = key.
Proof.
  unfold Name.keys. rewrite list_elem_of_fmap. split.
  - intros ([k v] & -> & Hin). cbn.
    apply elem_of_map_to_list in Hin. rewrite Name_lookup in Hin.
    unfold Name.values_for in Hin.
    destruct (filter _ _) as [| a l] eqn:E; [discriminate |].
    assert (Ha : a ∈ filter (fun a => Name.typeStr (Name.type a) = k)
                       (Name.attributes_read name))
      by (rewrite E; left).
    apply list_elem_of_filter in Ha as [Hk Ha]. eauto.
  - intros (a & Ha & Hk).
    assert (Hf : a ∈ filter (fun a => Name.typeStr (Name.type a) = key)
                       (Name.attributes_read name))
      by (apply list_elem_of_filter; auto).
    destruct (Name.__attributes (Name.__init__ name) !! key) as [vs |] eqn:E.
    + exists (key, vs). split; [reflexivity |].
      apply elem_of_map_to_list. exact E.
    + rewrite Name_lookup in E. unfold Name.values_for in E.
      destruct (filter _ _); [inversion Hf | discriminate].
Qed.

(** X20: two inputs from which the constructor reads the same (type, value)
    attributes up to order give names with the same string. That string
    lists the keys in sorted order, each key once, and under a key its values
    in sorted order, every pair written "KEY=value" and all of them joined by
    ", ". *)
Theorem Name_str_order_independent
    (name1 name2 : list (list Name.AttributeTypeAndValue)) :
  Name.attributes_read name1 ≡ₚ Name.attributes_read name2 ->
  Name.__str__ (Name.__init__ name1) = Name.__str__ (Name.__init__ name2)
  /\ exists keys : list string,
       Sorted Py.str_le keys
       /\ NoDup keys
       /\ (forall key, key ∈ keys
                       <-> exists a, a ∈ Name.attributes_read name1
                                     /\ Name.typeStr (Name.type a) = key)
       /\ (forall key, Sorted Py.str_le
                         (Py.sorted (Name.values_for key (Name.attributes_read name1)))
                       /\ Py.sorted (Name.values_for key (Name.attributes_read name1))
                          ≡ₚ Name.values_for key (Name.attributes_read name1))
       /\ Name.__str__ (Name.__init__ name1)
          = Py.join ", "
              ((fun key =>
                  Py.join ", "
                    ((fun value => key +:+ "=" +:+ value)
                     <$> Py.sorted
                           (Name.values_for key (Name.attributes_read name1))))
               <$> keys).
Proof.
  intros Hperm. split.
  - rewrite !Name_str_render.
    rewrite (sorted_perm _ _ (Name_keys_perm _ _ Hperm)).
    f_equal. apply list_fmap_ext. intros _ key _.
    rewrite (sorted_perm _ _ (values_for_perm key _ _ Hperm)). reflexivity.
  - exists (Py.sorted (Name.keys (Name.__init__ name1))).
    split; [apply sorted_Sorted |].
    split; [rewrite sorted_Permutation; apply NoDup_fst_map_to_list |].
    split; [intros key; rewrite sorted_Permutation; apply Name_keys_elem |].
    split; [intros key; split;
            [apply sorted_Sorted | apply sorted_Permutation] |].
    apply Name_str_render.
Qed.

(** The same three attributes in two orders. *)
Lemma Name_str_order_independent_witness :
  let cn_b := Sample.attribute "2.5.4.3" "b" in
  let c_cz := Sample.attribute "2.5.4.6" "CZ" in
  let cn_a := Sample.attribute "2.5.4.3" "a" in
  Name.__str__ (Name.__init__ [[cn_b]; [c_cz]; [cn_a]]) = "C=CZ, CN=a, CN=b"
  /\ Name.__str__ (Name.__init__ [[cn_a]; [cn_b]; [c_cz]]) = "C=CZ, CN=a, CN=b".
Proof.
  intros cn_b c_cz cn_a.
  assert (Hperm : Name.attributes_read [[cn_b]; [c_cz]; [cn_a]]
                  ≡ₚ Name.attributes_read [[cn_a]; [cn_b]; [c_cz]])
    by exact (Permutation_app_comm [cn_b; c_cz] [cn_a]).
  destruct (Name_str_order_independent _ _ Hperm) as [Heq _].
  split; [| rewrite <- Heq]; vm_compute; reflexivity.
Defined.

(** ** Validity of a certificate at a date *)

Section ValidityAtDate.

Variable certificate_rev_date : string -> Z -> option string.

Let time_validity := X509Certificate.time_validity_at_date.
Let crl_validity := X509Certificate.crl_validity_at_date certificate_rev_date.
Let results_at_date :=
  X509Certificate.verification_results_at_date certificate_rev_date.
Let valid_at_date := X509Certificate.valid_at_date certificate_rev_date.

(** The two keys every evaluation recomputes. *)
Let TIME : string := "CERT_TIME_VALIDITY_OK".
Let REVOKED : string := "CERT_NOT_REVOKED".

(** What [verification_results_at_date] returns and how it leaves the store,
    by the point where it ends. *)
Lemma verification_results_at_date_run self date σ stored base :
  X509Certificate.verification_results self = Some stored ->
  σ !! stored = Some base ->
  results_at_date self date σ
  = let results := fresh (dom σ) in
    match time_validity self date with
    | Raise e => (Raise e, <[results := base]> σ)
    | Ok time_ok =>
        let timed := <[TIME := Py.PyBool time_ok]> base in
        if X509Certificate.check_crl self then
          match crl_validity self date with
          | Raise e => (Raise e, <[results := timed]> σ)
          | Ok not_revoked =>
              (Ok (Some results),
               <[results := <[REVOKED := Py.PyBool not_revoked]> timed]> σ)
          end
        else
          (Ok (Some results), <[results := <[REVOKED := Py.PyNone]> timed]> σ)
    end.
Proof.
  intros Hstored Hbase.
  unfold results_at_date, X509Certificate.verification_results_at_date.
  rewrite Hstored.
  unfold mbind, X509Certificate.M_bind, X509Certificate.read,
    X509Certificate.new_dict, X509Certificate.lift, X509Certificate.setitem,
    mret, X509Certificate.M_ret.
  rewrite Hbase. cbn [default].
  fold (time_validity self date).
  destruct (time_validity self date) as [time_ok | e]; [| reflexivity].
  cbv zeta. rewrite alter_insert_eq.
  destruct (X509Certificate.check_crl self).
  - fold (crl_validity self date).
    destruct (crl_validity self date) as [not_revoked | e]; [| reflexivity].
    rewrite alter_insert_eq. reflexivity.
  - rewrite alter_insert_eq. reflexivity.
Qed.

Lemma fresh_unused (σ : gmap positive (gmap string Py.value)) :
  σ !! fresh (dom σ) = None.
Proof. apply not_elem_of_dom. apply is_fresh. Qed.

(** Writing at an unused reference changes no dictionary of the store. *)
Lemma insert_fresh_preserves (σ : gmap positive (gmap string Py.value)) d l x :
  σ !! l = Some x -> <[fresh (dom σ) := d]> σ !! l = Some x.
Proof.
  intros Hl. rewrite lookup_insert_ne; [exact Hl |].
  intros Heq. rewrite <- Heq, fresh_unused in Hl. discriminate.
Qed.

(** The store after [verification_results_at_date] keeps every dictionary it
    had. *)
Lemma verification_results_at_date_frame self date σ l x :
  σ !! l = Some x -> (results_at_date self date σ).2 !! l = Some x.
Proof.
  intros Hl.
  destruct (X509Certificate.verification_results self) as [stored |] eqn:Hs.
  - destruct (σ !! stored) as [base |] eqn:Hbase.
    + rewrite (verification_results_at_date_run _ _ _ _ _ Hs Hbase). cbv zeta.
      destruct (time_validity self date);
        [destruct (X509Certificate.check_crl self);
         [destruct (crl_validity self date) |] |];
        cbn [snd]; apply insert_fresh_preserves; exact Hl.
    + unfold results_at_date, X509Certificate.verification_results_at_date.
      rewrite Hs.
      unfold mbind, X509Certificate.M_bind, X509Certificate.read,
        X509Certificate.new_dict, X509Certificate.lift,
        X509Certificate.setitem, mret, X509Certificate.M_ret.
      rewrite Hbase. cbn [default].
      destruct (X509Certificate.time_validity_at_date self date);
        [destruct (X509Certificate.check_crl self);
         [destruct (X509Certificate.crl_validity_at_date _ self date) |] |];
        cbn [snd]; rewrite ?alter_insert_eq;
        apply insert_fresh_preserves; exact Hl.
  - unfold results_at_date, X509Certificate.verification_results_at_date.
    rewrite Hs. exact Hl.
Qed.

(** [valid_at_date] returns what the evaluation of the dictionary built by
    [verification_results_at_date] returns, in the store that call left. *)
Lemma valid_at_date_run self date ignore σ :
  valid_at_date self date ignore σ
  = match results_at_date self date σ with
    | (Ok None, σ') =>
        (Ok (X509Certificate._evaluate_verification_results None ignore), σ')
    | (Ok (Some results), σ') =>
        (Ok (X509Certificate._evaluate_verification_results
               (Some (default ∅ (σ' !! results))) ignore), σ')
    | (Raise e, σ') => (Raise e, σ')
    end.
Proof.
  unfold valid_at_date, X509Certificate.valid_at_date.
  unfold mbind at 1. unfold X509Certificate.M_bind at 1.
  fold (results_at_date self date σ).
  destruct (results_at_date self date σ) as [[[results |] | e] σ'];
    reflexivity.
Qed.

(** The dictionary returned is the copy described by [recomputed], at a
    reference the store did not use. *)
Lemma verification_results_at_date_result self date σ stored base :
  X509Certificate.verification_results self = Some stored ->
  σ !! stored = Some base ->
  match X509Certificate.recomputed certificate_rev_date self date base with
  | Ok d =>
      results_at_date self date σ
      = (Ok (Some (fresh (dom σ))), <[fresh (dom σ) := d]> σ)
  | Raise e => (results_at_date self date σ).1 = Raise e
  end.
Proof.
  intros Hs Hbase.
  rewrite (verification_results_at_date_run _ _ _ _ _ Hs Hbase). cbv zeta.
  unfold X509Certificate.recomputed.
  fold (time_validity self date). fold (crl_validity self date).
  destruct (time_validity self date) as [time_ok | e]; [| reflexivity].
  cbn. destruct (X509Certificate.check_crl self); [| reflexivity].
  destruct (crl_validity self date); reflexivity.
Qed.

(** The value of [valid_at_date] is the evaluation of that copy. *)
Lemma valid_at_date_value self date ignore σ stored base :
  X509Certificate.verification_results self = Some stored ->
  σ !! stored = Some base ->
  (valid_at_date self date ignore σ).1
  = (d ← X509Certificate.recomputed certificate_rev_date self date base;
     Ok (X509Certificate._evaluate_verification_results (Some d) ignore)).
Proof.
  intros Hs Hbase. rewrite valid_at_date_run.
  pose proof (verification_results_at_date_result self date σ stored base
                Hs Hbase) as Hres.
  destruct (X509Certificate.recomputed certificate_rev_date self date base)
    as [d | e].
  - fold results_at_date. rewrite Hres. rewrite lookup_insert_eq. reflexivity.
  - fold results_at_date.
    destruct (results_at_date self date σ) as [[[r |] |] σ'];
      cbn in Hres; try discriminate. injection Hres as ->. reflexivity.
Qed.

Lemma valid_at_date_frame self date ignore σ l x :
  σ !! l = Some x -> (valid_at_date self date ignore σ).2 !! l = Some x.
Proof.
  intros Hl. rewrite valid_at_date_run.
  pose proof (verification_results_at_date_frame self date σ l x Hl) as Hf.
  fold results_at_date.
  destruct (results_at_date self date σ) as [[[r |] |] σ']; exact Hf.
Qed.

(** The evaluation of a dictionary whose two keys were just written. *)
Lemma evaluate_recomputed (base : gmap string Py.value) time_ok revoked ignore :
  X509Certificate._evaluate_verification_results
    (Some (<[REVOKED := revoked]> (<[TIME := Py.PyBool time_ok]> base)))
    ignore = true
  <-> X509Certificate.accepted ignore REVOKED revoked
      /\ time_ok = true /\ X509Certificate.others_true base.
Proof.
  rewrite evaluate_dict. split.
  - intros H. split; [| split].
    + apply H. apply lookup_insert_eq.
    + specialize (H TIME (Py.PyBool time_ok)).
      rewrite lookup_insert_ne, lookup_insert_eq in H by discriminate.
      destruct (H eq_refl) as [[= ->] | (Hk & _)];
        [reflexivity | discriminate Hk].
    + intros key value Hk1 Hk2 Hbase.
      specialize (H key value).
      rewrite !lookup_insert_ne in H by (subst TIME REVOKED; congruence).
      destruct (H Hbase) as [-> | (Hk & _)]; [reflexivity | contradiction].
  - intros (Hrev & -> & Hothers) key value.
    destruct (decide (key = REVOKED)) as [-> | Hk2].
    { rewrite lookup_insert_eq. intros [= <-]. exact Hrev. }
    rewrite lookup_insert_ne by congruence.
    destruct (decide (key = TIME)) as [-> | Hk1].
    { rewrite lookup_insert_eq. intros [= <-]. left. reflexivity. }
    rewrite lookup_insert_ne by congruence.
    intros Hbase. left. eapply Hothers; eauto.
Qed.

(** C3 (as amended): for a certificate that holds verification results and
    whose validity dates parse, when the CRL store finds no revocation date:
    with [check_crl] true, [verification_results_at_date] sets
    CERT_NOT_REVOKED to [True], and [valid_at_date] passes exactly when the
    time validity and every other check are true, whatever
    [ignore_missing_crl_check] is; with [check_crl] false CERT_NOT_REVOKED is
    [None], and [valid_at_date] passes exactly when the caller passes
    [ignore_missing_crl_check] and the time validity and every other check
    are true. *)
Theorem revocation_date_not_found
    (self : X509Certificate.t) (date : datetime.t)
    (σ : gmap positive (gmap string Py.value)) (stored : positive)
    (base : gmap string Py.value) (time_ok : bool) :
  X509Certificate.verification_results self = Some stored ->
  σ !! stored = Some base ->
  X509Certificate.time_validity_at_date self date = Ok time_ok ->
  certificate_rev_date
    (Name.__str__ (Certificate.issuer (X509Certificate.tbsCertificate self)))
    (Certificate.serial_number (X509Certificate.tbsCertificate self)) = None ->
  exists (results : positive) (d : gmap string Py.value),
    (results_at_date self date σ).1 = Ok (Some results)
    /\ (results_at_date self date σ).2 !! results = Some d
    /\ d !! "CERT_NOT_REVOKED"
       = Some (if X509Certificate.check_crl self
               then Py.PyBool true else Py.PyNone)
    /\ forall ignore_missing_crl_check : bool,
         exists passed : bool,
           (valid_at_date self date ignore_missing_crl_check σ).1 = Ok passed
           /\ (passed = true
               <-> (X509Certificate.check_crl self = true
                    \/ ignore_missing_crl_check = true)
                   /\ time_ok = true /\ X509Certificate.others_true base).
Proof.
  intros Hs Hbase Htime Hcrl.
  assert (Hnot_revoked : crl_validity self date = Ok true).
  { unfold crl_validity, X509Certificate.crl_validity_at_date,
      X509Certificate.get_revocation_date.
    rewrite Hcrl. reflexivity. }
  set (revoked := if X509Certificate.check_crl self
                  then Py.PyBool true else Py.PyNone).
  assert (Hrec : X509Certificate.recomputed certificate_rev_date self date base
                 = Ok (<[REVOKED := revoked]>
                         (<[TIME := Py.PyBool time_ok]> base))).
  { unfold X509Certificate.recomputed. rewrite Htime.
    fold (crl_validity self date). rewrite Hnot_revoked.
    subst revoked. destruct (X509Certificate.check_crl self); reflexivity. }
  pose proof (verification_results_at_date_result self date σ stored base
                Hs Hbase) as Hres.
  rewrite Hrec in Hres.
  exists (fresh (dom σ)), (<[REVOKED := revoked]>
                             (<[TIME := Py.PyBool time_ok]> base)).
  rewrite Hres. cbn [fst snd].
  split; [reflexivity |].
  split; [apply lookup_insert_eq |].
  split; [apply lookup_insert_eq |].
  intros ignore.
  exists (X509Certificate._evaluate_verification_results
            (Some (<[REVOKED := revoked]> (<[TIME := Py.PyBool time_ok]> base)))
            ignore).
  split.
  - rewrite (valid_at_date_value self date ignore σ stored base Hs Hbase), Hrec.
    reflexivity.
  - rewrite evaluate_recomputed. unfold X509Certificate.accepted.
    subst revoked. destruct (X509Certificate.check_crl self).
    + intuition.
    + split.
      * intros ([Hf | (_ & _ & Hi)] & Ht & Ho); [discriminate | auto].
      * intros ([Hf | Hi] & Ht & Ho); [discriminate | auto 10].
Qed.

(** C10: for a certificate that holds verification results,
    [verification_results_at_date] leaves every dictionary of the store,
    the stored results among them, as it was. What it returns is a new
    dictionary, a copy of the stored one in which CERT_TIME_VALIDITY_OK and
    CERT_NOT_REVOKED alone are written, and it does return one whenever the
    dates it needs parse. [valid_at_date] changes no dictionary either, and
    asked again at the same date it builds an equal dictionary and gives the
    same answer. *)
Theorem verification_results_at_date_copy
    (self : X509Certificate.t) (date : datetime.t) (ignore : bool)
    (σ : gmap positive (gmap string Py.value)) (stored : positive)
    (base : gmap string Py.value) :
  X509Certificate.verification_results self = Some stored ->
  σ !! stored = Some base ->
  let after := (results_at_date self date σ).2 in
  (forall l d, σ !! l = Some d -> after !! l = Some d)
  /\ after !! stored = Some base
  /\ (forall results,
        (results_at_date self date σ).1 = Ok (Some results) ->
        σ !! results = None /\ results <> stored
        /\ exists d,
             after !! results = Some d
             /\ X509Certificate.recomputed certificate_rev_date self date base
                = Ok d
             /\ is_Some (d !! "CERT_TIME_VALIDITY_OK")
             /\ is_Some (d !! "CERT_NOT_REVOKED")
             /\ forall key,
                  key <> "CERT_TIME_VALIDITY_OK" -> key <> "CERT_NOT_REVOKED" ->
                  d !! key = base !! key)
  /\ (forall d,
        X509Certificate.recomputed certificate_rev_date self date base = Ok d ->
        exists results, (results_at_date self date σ).1 = Ok (Some results))
  /\ (forall l d,
        σ !! l = Some d -> (valid_at_date self date ignore σ).2 !! l = Some d)
  /\ (forall first second,
        (results_at_date self date σ).1 = Ok (Some first) ->
        (results_at_date self date after).1 = Ok (Some second) ->
        first <> second
        /\ (results_at_date self date after).2 !! second = after !! first)
  /\ (valid_at_date self date ignore
        (valid_at_date self date ignore σ).2).1
     = (valid_at_date self date ignore σ).1.
Proof.
  intros Hs Hbase after.
  assert (Hframe : forall l d, σ !! l = Some d -> after !! l = Some d)
    by (intros l d; apply verification_results_at_date_frame).
  pose proof (verification_results_at_date_result self date σ stored base
                Hs Hbase) as Hres.
  pose proof (verification_results_at_date_result self date after stored base
                Hs (Hframe _ _ Hbase)) as Hres2.
  split; [exact Hframe |].
  split; [exact (Hframe _ _ Hbase) |].
  split; [| split; [| split; [| split]]].
  - intros results Hret.
    destruct (X509Certificate.recomputed certificate_rev_date self date base)
      as [d | e] eqn:Hrec; [| congruence].
    subst after. rewrite Hres in Hret |- *. cbn [fst snd] in *.
    injection Hret as <-.
    split; [apply fresh_unused |].
    split; [intros Heq; pose proof (fresh_unused σ) as Hf;
            rewrite Heq, Hbase in Hf; discriminate Hf |].
    exists d. split; [apply lookup_insert_eq |]. split; [reflexivity |].
    unfold X509Certificate.recomputed in Hrec.
    destruct (X509Certificate.time_validity_at_date self date) as [time_ok |];
      [| discriminate].
    cbn in Hrec.
    destruct (if X509Certificate.check_crl self then _ else _)
      as [revoked |]; [| discriminate].
    cbn in Hrec. injection Hrec as <-.
    split; [rewrite lookup_insert_ne by discriminate;
            rewrite lookup_insert_eq; eauto |].
    split; [rewrite lookup_insert_eq; eauto |].
    intros key Hk1 Hk2. rewrite !lookup_insert_ne by congruence. reflexivity.
  - intros d Hrec. rewrite Hrec in Hres. rewrite Hres. eauto.
  - intros l d. apply valid_at_date_frame.
  - intros first second Hfirst Hsecond.
    destruct (X509Certificate.recomputed certificate_rev_date self date base)
      as [d | e] eqn:Hrec; [| congruence].
    rewrite Hres2 in Hsecond |- *. cbn [fst snd] in *.
    injection Hsecond as <-.
    assert (Hafter : after !! first = Some d).
    { subst after. rewrite Hres in Hfirst |- *. cbn [fst snd] in *.
      injection Hfirst as <-. apply lookup_insert_eq. }
    split.
    + intros ->. rewrite fresh_unused in Hafter. discriminate.
    + rewrite lookup_insert_eq. symmetry. exact Hafter.
  - rewrite (valid_at_date_value self date ignore σ stored base Hs Hbase).
    apply valid_at_date_value with (stored := stored); [exact Hs |].
    apply valid_at_date_frame. exact Hbase.
Qed.

End ValidityAtDate.

(** CRL checking enabled, nothing found in the CRL store, and a caller that
    does not ask to ignore missing revocation data: CERT_NOT_REVOKED is
    [True], not unset, and the certificate passes. *)
Lemma revocation_date_not_found_counterexample :
  let self := Sample.certificate (Some 1%positive) true in
  let date := datetime.mk 2020 1 5 0 0 0 0 in
  let run :=
    X509Certificate.verification_results_at_date Sample.no_revocation
      self date Sample.verified in
  X509Certificate.check_crl self = true
  /\ Sample.no_revocation
       (Name.__str__ (Certificate.issuer (X509Certificate.tbsCertificate self)))
       (Certificate.serial_number (X509Certificate.tbsCertificate self)) = None
  /\ run.1 = Ok (Some 2%positive)
  /\ (d ← run.2 !! 2%positive; d !! "CERT_NOT_REVOKED") = Some (Py.PyBool true)
  /\ (d ← run.2 !! 2%positive; d !! "CERT_NOT_REVOKED") <> Some Py.PyNone
  /\ (X509Certificate.valid_at_date Sample.no_revocation self date false
        Sample.verified).1 = Ok true.
Proof.
  cbv zeta. repeat split; try (vm_compute; reflexivity).
  vm_compute. discriminate.
Qed.

(** The same certificate with and without CRL checking. *)
Lemma revocation_date_not_found_witness :
  let date := datetime.mk 2020 1 5 0 0 0 0 in
  (exists passed,
     (X509Certificate.valid_at_date Sample.no_revocation
        (Sample.certificate (Some 1%positive) true) date false
        Sample.verified).1 = Ok passed)
  /\ (exists passed,
        (X509Certificate.valid_at_date Sample.no_revocation
           (Sample.certificate (Some 1%positive) false) date false
           Sample.verified).1 = Ok passed).
Proof.
  intros date.
  assert (Hbase : Sample.verified !! 1%positive
                  = Some {[ "CERT_SIGNATURE_OK" := Py.PyBool true ]})
    by (vm_compute; reflexivity).
  split.
  - destruct (revocation_date_not_found Sample.no_revocation
                (Sample.certificate (Some 1%positive) true) date
                Sample.verified 1%positive _ true eq_refl Hbase
                eq_refl eq_refl) as (results & d & _ & _ & _ & Hvalid).
    destruct (Hvalid false) as (passed & Hpassed & _). eauto.
  - destruct (revocation_date_not_found Sample.no_revocation
                (Sample.certificate (Some 1%positive) false) date
                Sample.verified 1%positive _ true eq_refl Hbase
                eq_refl eq_refl) as (results & d & _ & _ & _ & Hvalid).
    destruct (Hvalid false) as (passed & Hpassed & _). eauto.
Defined.

(** The dictionary a verifier left is still what it was after an evaluation,
    and a second evaluation answers as the first. *)
Lemma verification_results_at_date_copy_witness :
  let self := Sample.certificate (Some 1%positive) true in
  let date := datetime.mk 2020 1 5 0 0 0 0 in
  (X509Certificate.verification_results_at_date Sample.no_revocation
     self date Sample.verified).2 !! 1%positive
  = Some {[ "CERT_SIGNATURE_OK" := Py.PyBool true ]}
  /\ (X509Certificate.valid_at_date Sample.no_revocation self date false
        (X509Certificate.valid_at_date Sample.no_revocation self date false
           Sample.verified).2).1
     = (X509Certificate.valid_at_date Sample.no_revocation self date false
          Sample.verified).1.
Proof.
  intros self date.
  assert (Hbase : Sample.verified !! 1%positive
                  = Some {[ "CERT_SIGNATURE_OK" := Py.PyBool true ]})
    by (vm_compute; reflexivity).
  destruct (verification_results_at_date_copy Sample.no_revocation
              self date false Sample.verified 1%positive _ eq_refl Hbase)
    as (_ & Hstored & _ & _ & _ & _ & Hrepeat).
  split; assumption.
Defined.

(** * Further properties of the module *)

(** ** Bit-flag extensions *)

Ltac case_bits :=
  repeat (match goal with
          | |- context [negb (?b =? 0)] => destruct (negb (b =? 0))
          end; cbn).

(** The object [KeyUsageExt] builds from a tuple of bits. *)
Lemma KeyUsageExt_init_tuple (bits : list Z) :
  KeyUsageExt.__init__ (Py.PyTuple bits)
  = Ok {| KeyUsageExt.digitalSignature := KeyUsageExt.bit_set bits 0;
          KeyUsageExt.nonRepudiation := KeyUsageExt.bit_set bits 1;
          KeyUsageExt.keyEncipherment := KeyUsageExt.bit_set bits 2;
          KeyUsageExt.dataEncipherment := KeyUsageExt.bit_set bits 3;
          KeyUsageExt.keyAgreement := KeyUsageExt.bit_set bits 4;
          KeyUsageExt.keyCertSign := KeyUsageExt.bit_set bits 5;
          KeyUsageExt.cRLSign := KeyUsageExt.bit_set bits 6;
          KeyUsageExt.encipherOnly := KeyUsageExt.bit_set bits 7;
          KeyUsageExt.decipherOnly := KeyUsageExt.bit_set bits 8 |}.
Proof.
  unfold KeyUsageExt.__init__, KeyUsageExt.bit_set.
  do 9 (destruct bits as [| ? bits]; [cbn; case_bits; reflexivity |]).
  cbn. case_bits; reflexivity.
Qed.

Lemma bit_set_zeros n : forall i, KeyUsageExt.bit_set (replicate n 0) i = false.
Proof.
  unfold KeyUsageExt.bit_set.
  induction n as [| n IHn]; intros [| i]; cbn; auto.
Qed.

Lemma bit_set_padding bits n : forall i,
  KeyUsageExt.bit_set (bits ++ replicate n 0) i = KeyUsageExt.bit_set bits i.
Proof.
  induction bits as [| b bits IH]; intros i.
  - cbn [app]. rewrite bit_set_zeros. destruct i; reflexivity.
  - destruct i as [| i]; [reflexivity | apply IH].
Qed.

Lemma bit_set_take bits (n i : nat) :
  (i < n)%nat ->
  KeyUsageExt.bit_set (take n bits) i = KeyUsageExt.bit_set bits i.
Proof.
  unfold KeyUsageExt.bit_set. revert n i.
  induction bits as [| b bits IH]; intros [| n] [| i] Hlt; cbn;
    try reflexivity; try lia.
  apply IH. lia.
Qed.

(** X2: the flags of [KeyUsageExt] do not change when zero bits are put
    after the bit string, nor when the bits after the ninth are cut off. *)
Theorem KeyUsageExt_padding_and_tail (bits : list Z) (n : nat) :
  KeyUsageExt.__init__ (Py.PyTuple (bits ++ replicate n 0))
  = KeyUsageExt.__init__ (Py.PyTuple bits)
  /\ KeyUsageExt.__init__ (Py.PyTuple (take 9 bits))
     = KeyUsageExt.__init__ (Py.PyTuple bits).
Proof.
  rewrite !KeyUsageExt_init_tuple. split.
  - rewrite !bit_set_padding. reflexivity.
  - rewrite !bit_set_take by lia. reflexivity.
Qed.

(** X1: every reason flag of [Reasons] is true exactly when the bit at its
    position (0 for unused .. 8 for aACompromise) is present and set; a
    shorter bit string does not fail and leaves the later flags false; an
    int in the place of the tuple of bits raises [TypeError]. *)
Theorem Reasons_flags_by_position (bits : list Z) (n : Z) :
  Reasons.__init__ (Py.PyTuple bits)
  = Ok {| Reasons.unused := KeyUsageExt.bit_set bits 0;
          Reasons.keyCompromise := KeyUsageExt.bit_set bits 1;
          Reasons.cACompromise := KeyUsageExt.bit_set bits 2;
          Reasons.affiliationChanged := KeyUsageExt.bit_set bits 3;
          Reasons.superseded := KeyUsageExt.bit_set bits 4;
          Reasons.cessationOfOperation := KeyUsageExt.bit_set bits 5;
          Reasons.certificateHold := KeyUsageExt.bit_set bits 6;
          Reasons.privilegeWithdrawn := KeyUsageExt.bit_set bits 7;
          Reasons.aACompromise := KeyUsageExt.bit_set bits 8 |}
  /\ Reasons.__init__ (Py.PyInt n) = Raise TypeError.
Proof.
  split; [| reflexivity].
  unfold Reasons.__init__, KeyUsageExt.bit_set.
  do 9 (destruct bits as [| ? bits]; [cbn; case_bits; reflexivity |]).
  cbn. case_bits; reflexivity.
Qed.

(** X3: [NetscapeCertTypeExt] never fails on a tuple of bits, whatever its
    length: clientCert, serverCert and caCert are the bits at positions 0, 1
    and 5, false when the position is missing. *)
Theorem NetscapeCertTypeExt_flags (bits : list Z) :
  NetscapeCertTypeExt.__init__ (Py.PyTuple bits)
  = Ok {| NetscapeCertTypeExt.clientCert := KeyUsageExt.bit_set bits 0;
          NetscapeCertTypeExt.serverCert := KeyUsageExt.bit_set bits 1;
          NetscapeCertTypeExt.caCert := KeyUsageExt.bit_set bits 5 |}.
Proof.
  unfold NetscapeCertTypeExt.__init__, NetscapeCertTypeExt.flag,
    KeyUsageExt.bit_set.
  do 6 (destruct bits as [| ? bits]; [reflexivity |]).
  reflexivity.
Qed.

(** ** Extended key usage *)

(** Writing one attribute per item: when no two items name the same
    attribute, each attribute holds the value of its own item. *)
Lemma foldl_setattr_lookup {A} (f : string -> A) (items : list (string * string)) :
  NoDup items.*2 ->
  forall (self : gmap string A) oid attr,
    (oid, attr) ∈ items ->
    foldl (fun self item => <[item.2 := f item.1]> self) self items !! attr
    = Some (f oid).
Proof.
  induction items as [| [o a] items IH]; intros Hnd self oid attr Hin.
  - inversion Hin.
  - cbn in Hnd. apply NoDup_cons in Hnd as [Hnotin Hnd]. cbn [foldl].
    apply elem_of_cons in Hin as [[= -> ->] | Hin].
    + clear IH. cbn. revert self.
      induction items as [| [o' a'] items IH']; intros self; cbn.
      * apply lookup_insert_eq.
      * cbn in Hnotin, Hnd. apply not_elem_of_cons in Hnotin as [Hne Hnotin].
        apply NoDup_cons in Hnd as [_ Hnd].
        rewrite insert_insert_ne by congruence.
        apply IH'; assumption.
    + apply IH; assumption.
Qed.

Lemma foldl_setattr_dom {A} (f : string -> A) (items : list (string * string)) :
  forall (self : gmap string A) attr,
    is_Some (foldl (fun self item => <[item.2 := f item.1]> self) self items
             !! attr)
    <-> attr ∈ items.*2 \/ is_Some (self !! attr).
Proof.
  induction items as [| [o a] items IH]; intros self attr; cbn.
  - rewrite elem_of_nil. tauto.
  - rewrite IH, elem_of_cons, lookup_insert_is_Some. cbn.
    destruct (decide (a = attr)); intuition congruence.
Qed.

Lemma keyPurposeAttrs_NoDup :
  NoDup (map_to_list ExtendedKeyUsageExt._keyPurposeAttrs).*2.
Proof. apply (bool_decide_unpack _). vm_compute. exact I. Qed.

(** X4: [ExtendedKeyUsageExt] sets one attribute per known purpose, and no
    other; the attribute of a purpose is true exactly when the OID of that
    purpose is among the usage OIDs given. Order and repetition in the input
    do not matter. *)
Theorem ExtendedKeyUsageExt_membership
    (tuple_to_OID : list Z -> string) (asn1_extKeyUsage : list (list Z)) :
  (forall oid attr,
     ExtendedKeyUsageExt._keyPurposeAttrs !! oid = Some attr ->
     ExtendedKeyUsageExt.__init__ tuple_to_OID asn1_extKeyUsage !! attr
     = Some (bool_decide (oid ∈ tuple_to_OID <$> asn1_extKeyUsage)))
  /\ (forall attr,
        is_Some (ExtendedKeyUsageExt.__init__ tuple_to_OID asn1_extKeyUsage
                 !! attr)
        <-> exists oid,
              ExtendedKeyUsageExt._keyPurposeAttrs !! oid = Some attr)
  /\ (forall other : list (list Z),
        (forall oid, oid ∈ tuple_to_OID <$> asn1_extKeyUsage
                     <-> oid ∈ tuple_to_OID <$> other) ->
        ExtendedKeyUsageExt.__init__ tuple_to_OID other
        = ExtendedKeyUsageExt.__init__ tuple_to_OID asn1_extKeyUsage).
Proof.
  split; [| split].
  - intros oid attr Hentry. unfold ExtendedKeyUsageExt.__init__.
    etransitivity.
    { apply (foldl_setattr_lookup
               (ExtendedKeyUsageExt.listed tuple_to_OID asn1_extKeyUsage)
               _ keyPurposeAttrs_NoDup ∅ oid attr).
      apply elem_of_map_to_list. exact Hentry. }
    f_equal. apply bool_decide_ext.
    unfold ExtendedKeyUsageExt.usageOIDs. apply elem_of_list_to_set.
  - intros attr. unfold ExtendedKeyUsageExt.__init__.
    etransitivity.
    { apply (foldl_setattr_dom
               (ExtendedKeyUsageExt.listed tuple_to_OID asn1_extKeyUsage)). }
    rewrite lookup_empty, list_elem_of_fmap. split.
    + intros [([oid a] & -> & Hin) | [? Hf]]; [| discriminate Hf].
      exists oid. apply elem_of_map_to_list. exact Hin.
    + intros [oid Hentry]. left. exists (oid, attr). split; [reflexivity |].
      apply elem_of_map_to_list. exact Hentry.
  - intros other Hsame. unfold ExtendedKeyUsageExt.__init__.
    assert (Heq : ExtendedKeyUsageExt.usageOIDs tuple_to_OID other
                  = ExtendedKeyUsageExt.usageOIDs tuple_to_OID asn1_extKeyUsage).
    { unfold ExtendedKeyUsageExt.usageOIDs. apply set_eq. intros oid.
      rewrite !elem_of_list_to_set. symmetry. apply Hsame. }
    unfold ExtendedKeyUsageExt.listed. rewrite Heq. reflexivity.
Qed.

Example ExtendedKeyUsageExt_server_and_timestamping :
  let usage :=
    ExtendedKeyUsageExt.__init__ Sample.dotted
      [[1; 3; 6; 1; 5; 5; 7; 3; 1]; [1; 3; 6; 1; 5; 5; 7; 3; 8]] in
  usage !! "serverAuth" = Some true
  /\ usage !! "clientAuth" = Some false
  /\ usage !! "timeStamping" = Some true.
Proof. repeat split; vm_compute; reflexivity. Qed.

(** ** Extension: what a constructed extension guarantees *)

Lemma ExtensionType_name_inj a b :
  ExtensionType.name a = ExtensionType.name b -> a = b.
Proof. destruct a, b; cbn; intros H; first [reflexivity | discriminate H]. Qed.

Lemma ExtensionType_name_nonempty a :
  String.eqb (ExtensionType.name a) "" = false.
Proof. destruct a; reflexivity. Qed.

Lemma ExtensionType_name_known a :
  ExtensionType.name a ∈ KnownExtensions.knownExtensions.
Proof.
  apply list_elem_of_fmap. exists a. split; [reflexivity |].
  destruct a; set_solver.
Qed.

Section ExtensionGuarantees.

Context {asn1 payload : Type}.
Variable tuple_to_OID : list Z -> string.
Variable decode :
  list Byte.byte -> option Extension.Asn1Spec -> result (asn1 * list Byte.byte).
Variable _value : asn1 -> Py.object.
Variable convert : ExtensionType.t -> asn1 -> result payload.

Let Extension_init := Extension.__init__ tuple_to_OID decode _value convert.
Let create_extensions_list :=
  Extension._create_extensions_list tuple_to_OID decode _value convert.
Let try_body := Extension.try_body decode _value convert.

(** The constructor, by the outcome of the registry lookup and of the [try]
    block. *)
Lemma Extension_init_cases (extension : Extension.Asn1Extension) :
  Extension_init extension
  = let id := tuple_to_OID (Extension.extnID extension) in
    let is_critical := negb (Extension.critical extension =? 0) in
    match Extension._extensionDecoders !! id with
    | Some entry =>
        match try_body extension entry with
        | Ok value =>
            Ok {| Extension.id := id; Extension.is_critical := is_critical;
                  Extension.ext_type := Some entry.2;
                  Extension.value := value |}
        | Raise PyAsn1Error =>
            if is_critical then Raise PyAsn1Error
            else Ok (Extension.kept_raw tuple_to_OID extension)
        | Raise e => Raise e
        end
    | None =>
        if is_critical then
          Raise (CertificateError
                   ("Critical extension OID " +:+ id +:+ " not understood"))
        else Ok (Extension.kept_raw tuple_to_OID extension)
    end.
Proof.
  unfold Extension_init, Extension.__init__, try_body, Extension.try_body,
    Extension.kept_raw. cbv zeta.
  destruct (Extension._extensionDecoders !! _) as [[spec extType] |];
    reflexivity.
Qed.

(** The typed value of a registry entry is never a byte string. *)
Lemma try_body_typed extension entry value :
  try_body extension entry = Ok value ->
  forall raw, value <> Extension.Bytes raw.
Proof.
  unfold try_body, Extension.try_body, Extension.decoderFunction.
  destruct (decode _ _) as [[v rest] |]; cbn; [| discriminate].
  destruct entry.2; cbn;
    match goal with
    | |- context [KeyUsageExt.__init__ ?x] => destruct (KeyUsageExt.__init__ x)
    | |- context [convert ?a ?b] => destruct (convert a b)
    end; cbn; intros [= <-] raw; discriminate.
Qed.

(** X5: when the OID is in the registry and the payload decodes and parses,
    the extension is built, critical or not, with [value] the typed result
    and [ext_type] the attribute name of the registry entry. *)
Theorem Extension_registered_parsed
    (extension : Extension.Asn1Extension)
    (entry : option Extension.Asn1Spec * ExtensionType.t)
    (value : Extension.ext_value payload) :
  Extension._extensionDecoders !! tuple_to_OID (Extension.extnID extension)
    = Some entry ->
  try_body extension entry = Ok value ->
  Extension_init extension
  = Ok {| Extension.id := tuple_to_OID (Extension.extnID extension);
          Extension.is_critical := negb (Extension.critical extension =? 0);
          Extension.ext_type := Some entry.2;
          Extension.value := value |}.
Proof.
  intros Hentry Hbody. rewrite Extension_init_cases. cbv zeta.
  rewrite Hentry, Hbody. reflexivity.
Qed.

(** X6: when the OID is in the registry and decoding or parsing raises an
    exception other than [PyAsn1Error], the constructor raises it, critical
    or not; and a non-critical extension never makes the constructor raise
    [PyAsn1Error]. *)
Theorem Extension_other_exception_propagates
    (extension : Extension.Asn1Extension) :
  (forall entry e,
     Extension._extensionDecoders !! tuple_to_OID (Extension.extnID extension)
       = Some entry ->
     try_body extension entry = Raise e ->
     e <> PyAsn1Error ->
     Extension_init extension = Raise e)
  /\ (Extension.critical extension = 0 ->
        Extension_init extension <> Raise PyAsn1Error).
Proof.
  split.
  - intros entry e Hentry Hbody Hne. rewrite Extension_init_cases. cbv zeta.
    rewrite Hentry, Hbody. destruct e; congruence.
  - intros Hc. rewrite Extension_init_cases. cbv zeta. rewrite Hc.
    change (negb (0 =? 0)) with false. cbv iota.
    destruct (Extension._extensionDecoders
                !! tuple_to_OID (Extension.extnID extension)) as [entry |];
      [| discriminate].
    destruct (try_body extension entry) as [v | e]; [discriminate |].
    destruct e; discriminate.
Qed.

(** X7: an extension that was constructed carries the OID and the critical
    flag of its input; it has [ext_type] unset exactly when [value] is still
    the bytes of [extnValue]; a set [ext_type] is the one the registry gives
    for its OID; and a critical one always has [ext_type] set. *)
Theorem Extension_constructed_invariant
    (extension : Extension.Asn1Extension) (ext : Extension.t payload) :
  Extension_init extension = Ok ext ->
  Extension.id ext = tuple_to_OID (Extension.extnID extension)
  /\ Extension.is_critical ext = negb (Extension.critical extension =? 0)
  /\ (Extension.ext_type ext = None
      <-> Extension.value ext = Extension.Bytes (Extension.extnValue extension))
  /\ (forall kind,
        Extension.ext_type ext = Some kind ->
        exists spec,
          Extension._extensionDecoders !! Extension.id ext = Some (spec, kind))
  /\ (Extension.is_critical ext = true -> Extension.ext_type ext <> None).
Proof.
  rewrite Extension_init_cases. cbv zeta. intros Hinit.
  destruct (Extension._extensionDecoders !! _) as [[spec kind] |] eqn:Hentry.
  - destruct (try_body extension (spec, kind)) as [value | e] eqn:Hbody.
    + injection Hinit as <-. cbn.
      repeat split; try discriminate.
      * intros Hv. exfalso. exact (try_body_typed _ _ _ Hbody _ Hv).
      * intros kind' [= <-]. eauto.
    + destruct e; try discriminate Hinit.
      destruct (negb (Extension.critical extension =? 0)) eqn:Hc;
        [discriminate Hinit |].
      injection Hinit as <-. unfold Extension.kept_raw. cbn.
      rewrite Hc. repeat split; try discriminate; auto.
  - destruct (negb (Extension.critical extension =? 0)) eqn:Hc;
      [discriminate Hinit |].
    injection Hinit as <-. unfold Extension.kept_raw. cbn.
    rewrite Hc. repeat split; try discriminate; auto.
Qed.

Lemma comprehension_Forall2 extensions : forall exts,
  Extension.comprehension tuple_to_OID decode _value convert extensions
    = Ok exts
  <-> Forall2 (fun extension ext => Extension_init extension = Ok ext)
        extensions exts.
Proof.
  induction extensions as [| x xs IH]; intros exts; cbn.
  - split.
    + intros [= <-]. constructor.
    + intros H. inversion H. reflexivity.
  - fold (Extension_init x).
    destruct (Extension_init x) as [e |] eqn:Hx; cbn.
    + destruct (Extension.comprehension tuple_to_OID decode _value convert xs)
        as [es |] eqn:Hxs; cbn.
      * split.
        -- intros [= <-]. constructor; [exact Hx | apply IH; reflexivity].
        -- intros H. inversion H as [| ? e' ? es' He' Hes']; subst.
           apply IH in Hes'. rewrite Hx in He'. congruence.
      * split; [discriminate |].
        intros H. inversion H as [| ? e' ? es' He' Hes']; subst.
        apply IH in Hes'. discriminate.
    + split; [discriminate |].
      intros H. inversion H as [| ? e' ? es' He' Hes']; subst.
      rewrite Hx in He'. discriminate.
Qed.

(** X8: [_create_extensions_list] gives the empty list for an absent
    extensions field; otherwise it succeeds exactly when every extension
    constructs, and then lists the constructed extensions in the order of the
    input, one for one. *)
Theorem create_extensions_list_pointwise :
  create_extensions_list None = Ok []
  /\ forall extensions exts,
       create_extensions_list (Some extensions) = Ok exts
       <-> Forall2 (fun extension ext => Extension_init extension = Ok ext)
             extensions exts.
Proof.
  split; [reflexivity |].
  intros extensions exts. apply comprehension_Forall2.
Qed.

End ExtensionGuarantees.

(** A critical keyUsage whose payload is the BIT STRING 101: parsed. *)
Lemma Extension_registered_parsed_witness :
  Sample.Extension
    {| Extension.extnID := [2; 5; 29; 15]; Extension.critical := 1;
       Extension.extnValue := [Byte.x03; Byte.x02; Byte.x05; Byte.xa0] |}
  = Ok {| Extension.id := "2.5.29.15"; Extension.is_critical := true;
          Extension.ext_type := Some ExtensionType.KEY_USAGE;
          Extension.value :=
            Extension.KeyUsage
              {| KeyUsageExt.digitalSignature := true;
                 KeyUsageExt.nonRepudiation := false;
                 KeyUsageExt.keyEncipherment := true;
                 KeyUsageExt.dataEncipherment := false;
                 KeyUsageExt.keyAgreement := false;
                 KeyUsageExt.keyCertSign := false;
                 KeyUsageExt.cRLSign := false;
                 KeyUsageExt.encipherOnly := false;
                 KeyUsageExt.decipherOnly := false |} |}.
Proof.
  apply (Extension_registered_parsed Sample.dotted Sample.decode (fun v => v)
           Sample.convert
           {| Extension.extnID := [2; 5; 29; 15]; Extension.critical := 1;
              Extension.extnValue := [Byte.x03; Byte.x02; Byte.x05; Byte.xa0] |}
           (None, ExtensionType.KEY_USAGE));
    vm_compute; reflexivity.
Defined.

(** The same extension, constructed: its type is set and is the registry's. *)
Lemma Extension_constructed_invariant_witness :
  let extension :=
    {| Extension.extnID := [2; 5; 29; 15]; Extension.critical := 1;
       Extension.extnValue := [Byte.x03; Byte.x02; Byte.x05; Byte.xa0] |} in
  exists ext,
    Sample.Extension extension = Ok ext
    /\ Extension.id ext = Sample.dotted [2; 5; 29; 15]
    /\ Extension.ext_type ext <> None.
Proof.
  intros extension.
  destruct (Sample.Extension extension) as [ext |] eqn:Hext;
    [| vm_compute in Hext; discriminate Hext].
  exists ext.
  destruct (Extension_constructed_invariant Sample.dotted Sample.decode
              (fun v => v) Sample.convert extension ext Hext)
    as (Hid & Hcrit & _ & _ & Hset).
  split; [reflexivity | split; [exact Hid |]].
  apply Hset. rewrite Hcrit. reflexivity.
Defined.

(** ** Certificate: the attribute of each known extension *)

Section KnownExtensionAttributes.

Context {payload : Type}.

Lemma last_cons_cases {A} (x : A) (l : list A) :
  last (x :: l) = match last l with Some y => Some y | None => Some x end.
Proof. destruct l as [| y l]; [reflexivity |]. cbn. destruct (last (y :: l)) eqn:E; [reflexivity |]. apply last_None in E. discriminate. Qed.

(** The attribute of a kind after the extensions are attached. *)
Lemma foldl_attach_lookup (kind : ExtensionType.t)
    (extensions : list (Extension.t payload)) :
  forall self : gmap string (option (Extension.t payload)),
    foldl KnownExtensions.attach self extensions !! ExtensionType.name kind
    = match last (KnownExtensions.of_kind kind extensions) with
      | Some ext => Some (Some ext)
      | None => self !! ExtensionType.name kind
      end.
Proof.
  induction extensions as [| ext rest IH]; intros self; [reflexivity |].
  cbn [foldl]. rewrite IH. unfold KnownExtensions.of_kind.
  rewrite filter_cons.
  destruct (decide (Extension.ext_type ext = Some kind)) as [Hk | Hk].
  - rewrite last_cons_cases.
    destruct (last (filter _ rest)); [reflexivity |].
    unfold KnownExtensions.attach. rewrite Hk, ExtensionType_name_nonempty.
    apply lookup_insert_eq.
  - destruct (last (filter _ rest)); [reflexivity |].
    unfold KnownExtensions.attach.
    destruct (Extension.ext_type ext) as [kind' |]; [| reflexivity].
    rewrite ExtensionType_name_nonempty.
    apply lookup_insert_ne. intros Heq.
    apply ExtensionType_name_inj in Heq. congruence.
Qed.

Lemma foldl_attach_keys (extensions : list (Extension.t payload)) :
  forall (self : gmap string (option (Extension.t payload))) key,
    is_Some (foldl KnownExtensions.attach self extensions !! key) ->
    key ∈ KnownExtensions.knownExtensions \/ is_Some (self !! key).
Proof.
  induction extensions as [| ext rest IH]; intros self key; [auto |].
  cbn [foldl]. intros H. apply IH in H as [H | H]; [auto |].
  unfold KnownExtensions.attach in H.
  destruct (Extension.ext_type ext) as [kind |]; [| auto].
  rewrite ExtensionType_name_nonempty in H.
  apply lookup_insert_is_Some in H as [<- | [_ H]]; [| auto].
  left. apply ExtensionType_name_known.
Qed.

Lemma foldl_clear_lookup key (names : list string) :
  forall self : gmap string (option (Extension.t payload)),
    foldl (fun self extAttrName => <[extAttrName := None]> self) self names
      !! key
    = if decide (key ∈ names) then Some None else self !! key.
Proof.
  induction names as [| n names IH]; intros self; cbn [foldl].
  - destruct (decide (key ∈ [])) as [Hin |]; [inversion Hin | reflexivity].
  - rewrite IH.
    destruct (decide (key ∈ names)) as [Hin | Hnin].
    + rewrite decide_True by (right; exact Hin). reflexivity.
    + destruct (decide (key = n)) as [-> | Hne].
      * rewrite decide_True by left. apply lookup_insert_eq.
      * rewrite decide_False
          by (intros Hc; apply elem_of_cons in Hc as [? | ?]; auto).
        apply lookup_insert_ne. congruence.
Qed.

(** X9: after [Certificate.__init__] every known extension has its
    attribute, and no other attribute is added; the attribute of a kind is
    the last extension of that kind in the certificate, and [None] when the
    certificate has none - an extension kept as raw bytes fills no attribute. *)
Theorem known_extension_attributes_last
    (extensions : list (Extension.t payload)) :
  (forall kind,
     KnownExtensions.known_extension_attributes extensions
       !! ExtensionType.name kind
     = Some (last (KnownExtensions.of_kind kind extensions)))
  /\ (forall key,
        is_Some (KnownExtensions.known_extension_attributes extensions !! key)
        <-> key ∈ KnownExtensions.knownExtensions)
  /\ (forall kind,
        KnownExtensions.known_extension_attributes extensions
          !! ExtensionType.name kind = Some None
        <-> forall ext, ext ∈ extensions ->
                        Extension.ext_type ext <> Some kind).
Proof.
  assert (Hlast : forall kind,
            KnownExtensions.known_extension_attributes extensions
              !! ExtensionType.name kind
            = Some (last (KnownExtensions.of_kind kind extensions))).
  { intros kind. unfold KnownExtensions.known_extension_attributes.
    rewrite foldl_attach_lookup.
    destruct (last _); [reflexivity |].
    unfold KnownExtensions.clear_known. rewrite foldl_clear_lookup.
    rewrite decide_True by apply ExtensionType_name_known. reflexivity. }
  split; [exact Hlast | split].
  - intros key. split.
    + intros H. unfold KnownExtensions.known_extension_attributes in H.
      apply foldl_attach_keys in H as [H | H]; [exact H |].
      unfold KnownExtensions.clear_known in H.
      rewrite foldl_clear_lookup in H.
      destruct (decide (key ∈ KnownExtensions.knownExtensions));
        [assumption |].
      rewrite lookup_empty in H. destruct H as [? H]. discriminate H.
    + intros Hin. apply list_elem_of_fmap in Hin as (kind & -> & _).
      rewrite Hlast. eauto.
  - intros kind. rewrite Hlast. split.
    + intros [= Hnone] ext Hin Hk. apply last_None in Hnone.
      assert (Hf : ext ∈ KnownExtensions.of_kind kind extensions)
        by (apply list_elem_of_filter; auto).
      rewrite Hnone in Hf. inversion Hf.
    + intros Hnone. f_equal. apply last_None.
      destruct (KnownExtensions.of_kind kind extensions) as [| ext l] eqn:E;
        [reflexivity |].
      assert (Hf : ext ∈ KnownExtensions.of_kind kind extensions)
        by (rewrite E; left).
      apply list_elem_of_filter in Hf as [Hk Hin].
      exfalso. exact (Hnone ext Hin Hk).
Qed.

End KnownExtensionAttributes.

(** ** Dates: what [parse_date] reads and where UTC years land *)

Lemma substring_app_l (s t : string) : forall n m : nat,
  (n + m <= String.length s)%nat ->
  String.substring n m (s +:+ t) = String.substring n m s.
Proof.
  induction s as [| c s IH]; intros n m Hlen; cbn in Hlen.
  - assert (n = 0%nat) as -> by lia. assert (m = 0%nat) as -> by lia.
    cbn. destruct t; reflexivity.
  - change (String c s +:+ t) with (String c (s +:+ t)).
    destruct n as [| n]; [destruct m as [| m] |].
    + reflexivity.
    + change (String c (String.substring 0 m (s +:+ t))
              = String c (String.substring 0 m s)).
      f_equal. apply IH. lia.
    + change (String.substring n m (s +:+ t) = String.substring n m s).
      apply IH. lia.
Qed.

Lemma slice_app_l (s t : string) (a b : nat) :
  (a <= b)%nat -> (b <= String.length s)%nat ->
  Py.slice (s +:+ t) a b = Py.slice s a b.
Proof. intros Hab Hb. unfold Py.slice. apply substring_app_l. lia. Qed.

(** X10: [parse_date] reads the first 14 characters only: whatever follows
    them (a "Z", a fraction, a time-zone offset) changes neither the date
    returned nor the failure. *)
Theorem parse_date_reads_14_characters (date tail : string) :
  (14 <= String.length date)%nat ->
  ValidityInterval.parse_date (date +:+ tail) = ValidityInterval.parse_date date.
Proof.
  intros Hlen.
  unfold ValidityInterval.parse_date, ValidityInterval.second_field,
    Py.slice_to.
  rewrite !slice_app_l by lia. reflexivity.
Qed.

(** A time-zone offset after the seconds is not read. *)
Lemma parse_date_reads_14_characters_witness :
  ValidityInterval.parse_date "20200101120000+0100"
  = ValidityInterval.parse_date "20200101120000".
Proof.
  apply (parse_date_reads_14_characters "20200101120000" "+0100").
  cbn. lia.
Defined.

Lemma digit_of_range c d : Py.digit_of c = Some d -> 0 <= d <= 9.
Proof.
  intros H. apply digit_of_cases in H.
  repeat (apply elem_of_cons in H as [H | H]; [injection H as -> ->; lia |]).
  inversion H.
Qed.

(** [int] of a two-digit year behind its century. *)
Lemma int_century a b x y :
  Py.digit_of a = Some x -> Py.digit_of b = Some y ->
  Py.int (String "1" (String "9" (String a (String b EmptyString))))
  = Ok (1900 + (10 * x + y))
  /\ Py.int (String "2" (String "0" (String a (String b EmptyString))))
     = Ok (2000 + (10 * x + y)).
Proof.
  intros Ha Hb.
  apply digit_of_cases in Ha. apply digit_of_cases in Hb.
  repeat (apply elem_of_cons in Ha as [Ha | Ha];
          [injection Ha as -> -> |]); [.. | inversion Ha];
  repeat (apply elem_of_cons in Hb as [Hb | Hb];
          [injection Hb as -> ->; split; vm_compute; reflexivity |]);
  inversion Hb.
Qed.

(** The year of a parsed date is the number in the first four characters. *)
Lemma parse_date_year date year d :
  Py.int (Py.slice_to date 4) = Ok year ->
  ValidityInterval.parse_date date = Ok d ->
  datetime.year d = year.
Proof.
  intros Hy. unfold ValidityInterval.parse_date. rewrite Hy. cbn.
  destruct (Py.int (Py.slice date 4 6)); cbn; [| discriminate].
  destruct (Py.int (Py.slice date 6 8)); cbn; [| discriminate].
  destruct (Py.int (Py.slice date 8 10)); cbn; [| discriminate].
  destruct (Py.int (Py.slice date 10 12)); cbn; [| discriminate].
  destruct (ValidityInterval.second_field date); cbn; [| discriminate].
  unfold datetime.new. destruct (datetime.fields_ok _ _ _ _ _ _);
    [| discriminate].
  intros [= <-]. reflexivity.
Qed.

(** The year a date has once a two-digit year got its century. *)
Lemma expanded_year a b rest x y d :
  Py.digit_of a = Some x -> Py.digit_of b = Some y ->
  ValidityInterval.parse_date
    ((if 50 <=? 10 * x + y then "19" else "20") +:+ String a (String b rest))
  = Ok d ->
  datetime.year d
  = (if 50 <=? 10 * x + y then 1900 else 2000) + (10 * x + y)
  /\ 1950 <= datetime.year d <= 2049.
Proof.
  intros Ha Hb Hd.
  destruct (int_century a b x y Ha Hb) as [H19 H20].
  pose proof (digit_of_range _ _ Ha). pose proof (digit_of_range _ _ Hb).
  destruct (50 <=? 10 * x + y) eqn:Hcmp.
  - assert (Hs : Py.slice_to ("19" +:+ String a (String b rest)) 4
                 = String "1" (String "9" (String a (String b EmptyString))))
      by (destruct rest; reflexivity).
    rewrite <- Hs in H19. rewrite (parse_date_year _ _ _ H19 Hd).
    apply Z.leb_le in Hcmp. lia.
  - assert (Hs : Py.slice_to ("20" +:+ String a (String b rest)) 4
                 = String "2" (String "0" (String a (String b EmptyString))))
      by (destruct rest; reflexivity).
    rewrite <- Hs in H20. rewrite (parse_date_year _ _ _ H20 Hd).
    apply Z.leb_gt in Hcmp. lia.
Qed.

(** The expansion of a value that is not taken as generalized time. *)
Lemma getGeneralizedTime_two_digits timeComponent a b rest x y :
  (timeComponent = ValidityInterval.SigningTime (String a (String b rest))
   \/ exists name, name <> "generalTime"
                   /\ timeComponent
                      = ValidityInterval.Choice name (String a (String b rest))) ->
  Py.digit_of a = Some x -> Py.digit_of b = Some y ->
  ValidityInterval._getGeneralizedTime timeComponent
  = Ok ((if 50 <=? 10 * x + y then "19" else "20")
        +:+ String a (String b rest)).
Proof.
  intros Htc Ha Hb.
  assert (Hslice : Py.slice_to (String a (String b rest)) 2
                   = String a (String b EmptyString))
    by (destruct rest; reflexivity).
  destruct Htc as [-> | (name & Hname & ->)];
    unfold ValidityInterval._getGeneralizedTime; cbn [ValidityInterval.getName].
  - change (String.eqb "" "generalTime") with false. cbv iota.
    rewrite Hslice, (int_two_digits a b x y Ha Hb). reflexivity.
  - apply String.eqb_neq in Hname. rewrite Hname.
    rewrite Hslice, (int_two_digits a b x y Ha Hb). reflexivity.
Qed.

(** X11: a UTC time that starts with two digits and parses gives a date whose
    year is 19yy for yy >= 50 and 20yy otherwise, hence between 1950 and
    2049. *)
Theorem utcTime_year_window
    (name : string) (a b : ascii) (rest : string) (x y : Z) (d : datetime.t) :
  name <> "generalTime" ->
  Py.digit_of a = Some x -> Py.digit_of b = Some y ->
  (time ← ValidityInterval._getGeneralizedTime
            (ValidityInterval.Choice name (String a (String b rest)));
   ValidityInterval.parse_date time) = Ok d ->
  datetime.year d = (if 50 <=? 10 * x + y then 1900 else 2000) + (10 * x + y)
  /\ 1950 <= datetime.year d <= 2049.
Proof.
  intros Hname Ha Hb.
  rewrite (getGeneralizedTime_two_digits _ a b rest x y
             (or_intror (ex_intro _ name (conj Hname eq_refl))) Ha Hb).
  apply expanded_year; assumption.
Qed.

(** The last second of the window. *)
Lemma utcTime_year_window_witness :
  datetime.year (datetime.mk 2049 12 31 23 59 59 0) = 2000 + 49
  /\ 1950 <= datetime.year (datetime.mk 2049 12 31 23 59 59 0) <= 2049.
Proof.
  apply (utcTime_year_window "utcTime" "4" "9" "1231235959Z" 4 9
           (datetime.mk 2049 12 31 23 59 59 0));
    [discriminate | reflexivity | reflexivity | reflexivity].
Defined.

(** X12: a signingTime attribute whose value starts with two digits is read
    as UTC time, also when the value is written with a four-digit year: the
    two digits are taken for the year, so when the attribute is constructed
    it holds a date between 1950 and 2049. *)
Theorem Attribute_signingTime_read_as_utc
    (a b : ascii) (rest : string) (x y : Z) (attribute : Attribute.t) :
  Py.digit_of a = Some x -> Py.digit_of b = Some y ->
  Attribute.__init__ "1.2.840.113549.1.9.5" (String a (String b rest))
  = Ok attribute ->
  Attribute.name attribute = "signingTime"
  /\ exists d,
       Attribute.value attribute = Attribute.Date d
       /\ ValidityInterval.parse_date
            ((if 50 <=? 10 * x + y then "19" else "20")
             +:+ String a (String b rest)) = Ok d
       /\ 1950 <= datetime.year d <= 2049.
Proof.
  intros Ha Hb. unfold Attribute.__init__.
  assert (Hname : Attribute._oid2Name !! "1.2.840.113549.1.9.5"
                  = Some "signingTime") by (vm_compute; reflexivity).
  rewrite Hname. cbn [default].
  change (String.eqb "signingTime" "signingTime") with true. cbv iota.
  rewrite (getGeneralizedTime_two_digits _ a b rest x y (or_introl eq_refl)
             Ha Hb).
  cbn.
  destruct (ValidityInterval.parse_date _) as [d |] eqn:Hd; cbn;
    [| discriminate].
  intros [= <-]. cbn. split; [reflexivity |].
  exists d. split; [reflexivity | split; [reflexivity |]].
  exact (proj2 (expanded_year a b rest x y d Ha Hb Hd)).
Qed.

(** A signing time of 2020, and one written with the four-digit year 2050. *)
Lemma Attribute_signingTime_read_as_utc_witness :
  (exists attribute,
     Attribute.__init__ "1.2.840.113549.1.9.5" "200101120000Z" = Ok attribute
     /\ Attribute.name attribute = "signingTime")
  /\ Attribute.__init__ "1.2.840.113549.1.9.5" "20500101120000Z"
     = Raise ValueError.
Proof.
  split; [| vm_compute; reflexivity].
  destruct (Attribute.__init__ "1.2.840.113549.1.9.5" "200101120000Z")
    as [attribute |] eqn:Hattr; [| vm_compute in Hattr; discriminate Hattr].
  exists attribute. split; [reflexivity |].
  apply (Attribute_signingTime_read_as_utc "2" "0" "0101120000Z" 2 0
           attribute eq_refl eq_refl Hattr).
Defined.

(** ** Validity at a date: revocation, the interval, and the stored results *)

Lemma cmp_fields_eq xs : forall ys, datetime.cmp_fields xs ys = Eq -> xs = ys.
Proof.
  induction xs as [| x xs IH]; intros [| y ys]; cbn; try discriminate;
    [reflexivity |].
  destruct (x ?= y) eqn:E; try discriminate.
  apply Z.compare_eq in E as ->. intros H. f_equal. apply IH. exact H.
Qed.

Lemma cmp_fields_lt_trans xs : forall ys zs,
  datetime.cmp_fields xs ys = Lt -> datetime.cmp_fields ys zs = Lt ->
  datetime.cmp_fields xs zs = Lt.
Proof.
  induction xs as [| x xs IH]; intros [| y ys] [| z zs]; cbn;
    try discriminate; try reflexivity.
  destruct (x ?= y) eqn:Exy; try discriminate;
    destruct (y ?= z) eqn:Eyz; try discriminate; intros Hxy Hyz.
  - apply Z.compare_eq in Exy as ->. rewrite Eyz. eauto.
  - apply Z.compare_eq in Exy as ->. rewrite Eyz. reflexivity.
  - apply Z.compare_eq in Eyz as <-. rewrite Exy. reflexivity.
  - assert (Hxz : (x ?= z) = Lt)
      by (rewrite Z.compare_lt_iff in *; lia).
    rewrite Hxz. reflexivity.
Qed.

Lemma datetime_lt_le_trans a b c :
  datetime.lt a b -> datetime.le b c -> datetime.lt a c.
Proof.
  unfold datetime.lt, datetime.le, datetime.cmp. intros Hab Hbc.
  destruct (datetime.cmp_fields (datetime.fields b) (datetime.fields c)) eqn:E.
  - apply cmp_fields_eq in E. rewrite <- E. exact Hab.
  - eapply cmp_fields_lt_trans; eauto.
  - contradiction.
Qed.

Lemma datetime_le_lt_trans a b c :
  datetime.le a b -> datetime.lt b c -> datetime.lt a c.
Proof.
  unfold datetime.lt, datetime.le, datetime.cmp. intros Hab Hbc.
  destruct (datetime.cmp_fields (datetime.fields a) (datetime.fields b)) eqn:E.
  - apply cmp_fields_eq in E. rewrite E. exact Hbc.
  - eapply cmp_fields_lt_trans; eauto.
  - contradiction.
Qed.

Lemma datetime_not_ge_lt a b : datetime.ge a b = false <-> datetime.lt a b.
Proof.
  unfold datetime.ge, datetime.lt.
  destruct (datetime.cmp a b); split; congruence.
Qed.

(** [parse_date] raises nothing but [ValueError]. *)
Lemma parse_date_raises_ValueError date e :
  ValidityInterval.parse_date date = Raise e -> e = ValueError.
Proof.
  unfold ValidityInterval.parse_date.
  destruct (Py.int (Py.slice_to date 4)) as [year |] eqn:E1; cbn;
    [| intros [= <-]; eapply int_raises_ValueError; eauto].
  destruct (Py.int (Py.slice date 4 6)) as [month |] eqn:E2; cbn;
    [| intros [= <-]; eapply int_raises_ValueError; eauto].
  destruct (Py.int (Py.slice date 6 8)) as [day |] eqn:E3; cbn;
    [| intros [= <-]; eapply int_raises_ValueError; eauto].
  destruct (Py.int (Py.slice date 8 10)) as [hour |] eqn:E4; cbn;
    [| intros [= <-]; eapply int_raises_ValueError; eauto].
  destruct (Py.int (Py.slice date 10 12)) as [minute |] eqn:E5; cbn;
    [| intros [= <-]; eapply int_raises_ValueError; eauto].
  unfold ValidityInterval.second_field.
  destruct (Py.int (Py.slice date 12 14)) as [second | e'] eqn:E6; cbn.
  - unfold datetime.new.
    destruct (datetime.fields_ok _ _ _ _ _ _); congruence.
  - apply int_raises_ValueError in E6 as ->. cbn.
    unfold datetime.new.
    destruct (datetime.fields_ok _ _ _ _ _ _); congruence.
Qed.

Lemma time_validity_raises_ValueError self date e :
  X509Certificate.time_validity_at_date self date = Raise e -> e = ValueError.
Proof.
  unfold X509Certificate.time_validity_at_date,
    ValidityInterval.get_valid_from_as_datetime,
    ValidityInterval.get_valid_to_as_datetime.
  destruct (ValidityInterval.parse_date (ValidityInterval.valid_from _)) eqn:Ef;
    cbn; [| intros [= <-]; eapply parse_date_raises_ValueError; eauto].
  destruct (ValidityInterval.parse_date (ValidityInterval.valid_to _)) eqn:Et;
    cbn; [discriminate |].
  intros [= <-]. eapply parse_date_raises_ValueError; eauto.
Qed.

(** X14: a certificate whose valid_to lies before its valid_from is inside
    its validity interval at no date. *)
Theorem inverted_interval_never_valid
    (self : X509Certificate.t) (from_date to_date : datetime.t) :
  ValidityInterval.parse_date
    (ValidityInterval.valid_from
       (Certificate.validity (X509Certificate.tbsCertificate self)))
  = Ok from_date ->
  ValidityInterval.parse_date
    (ValidityInterval.valid_to
       (Certificate.validity (X509Certificate.tbsCertificate self)))
  = Ok to_date ->
  datetime.lt to_date from_date ->
  forall date, X509Certificate.time_validity_at_date self date = Ok false.
Proof.
  intros Hfrom Hto Hlt date.
  unfold X509Certificate.time_validity_at_date,
    ValidityInterval.get_valid_from_as_datetime,
    ValidityInterval.get_valid_to_as_datetime.
  rewrite Hfrom, Hto. cbn. f_equal.
  apply not_true_is_false. intros Htrue.
  apply andb_true_iff in Htrue as [Hto_ge Hfrom_ge].
  apply datetime_ge_le in Hto_ge. apply datetime_ge_le in Hfrom_ge.
  pose proof (datetime_lt_le_trans _ _ _ Hlt Hfrom_ge) as Hlt'.
  exact (datetime_lt_not_le _ _ Hlt' Hto_ge).
Qed.

(** An interval from 2020-01-11 back to 2020-01-01, asked in between. *)
Lemma inverted_interval_never_valid_witness :
  X509Certificate.time_validity_at_date
    {| X509Certificate.tbsCertificate :=
         {| Certificate.serial_number := 7;
            Certificate.issuer := Name.__init__ [];
            Certificate.validity :=
              {| ValidityInterval.valid_from := "20200111000000Z";
                 ValidityInterval.valid_to := "20200101000000Z" |} |};
       X509Certificate.verification_results := None;
       X509Certificate.check_crl := true |}
    (datetime.mk 2020 1 5 0 0 0 0)
  = Ok false.
Proof.
  apply inverted_interval_never_valid
    with (from_date := datetime.mk 2020 1 11 0 0 0 0)
         (to_date := datetime.mk 2020 1 1 0 0 0 0);
    reflexivity.
Defined.

(** A certificate as its constructor leaves it has no verification
    results: it is not verified and is valid at no date, whatever the flag;
    neither question raises, not even when the validity dates are malformed,
    and neither touches the store. *)
Theorem constructed_certificate_not_verified
    (certificate_rev_date : string -> Z -> option string)
    (tbsCertificate : Certificate.t) (date : datetime.t) (ignore : bool)
    (σ : gmap positive (gmap string Py.value)) :
  X509Certificate.check_crl (Construction.X509Certificate tbsCertificate) = true
  /\ X509Certificate.is_verified
       (Construction.X509Certificate tbsCertificate) ignore σ
     = (Ok false, σ)
  /\ X509Certificate.verification_results_at_date certificate_rev_date
       (Construction.X509Certificate tbsCertificate) date σ
     = (Ok None, σ)
  /\ X509Certificate.valid_at_date certificate_rev_date
       (Construction.X509Certificate tbsCertificate) date ignore σ
     = (Ok false, σ).
Proof. repeat split. Qed.

Section ValidityPolicy.

Variable certificate_rev_date : string -> Z -> option string.

Let crl_validity := X509Certificate.crl_validity_at_date certificate_rev_date.
Let valid_at_date := X509Certificate.valid_at_date certificate_rev_date.

(** X13: when the CRL store gives a revocation date that parses,
    CERT_NOT_REVOKED is true at the dates before it and false at the
    revocation date and at every date after: once revoked, revoked at all
    later dates. *)
Theorem crl_validity_from_revocation_date
    (self : X509Certificate.t) (rev_date : string) (revoked : datetime.t) :
  certificate_rev_date
    (Name.__str__ (Certificate.issuer (X509Certificate.tbsCertificate self)))
    (Certificate.serial_number (X509Certificate.tbsCertificate self))
  = Some rev_date ->
  rev_date <> "" ->
  ValidityInterval.parse_date rev_date = Ok revoked ->
  (forall date,
     crl_validity self date = Ok true <-> datetime.lt date revoked)
  /\ (forall date,
        crl_validity self date = Ok false <-> datetime.le revoked date)
  /\ (forall date later,
        crl_validity self date = Ok false -> datetime.le date later ->
        crl_validity self later = Ok false).
Proof.
  intros Hcrl Hne Hparse.
  assert (Hrun : forall date,
            crl_validity self date
            = Ok (negb (datetime.ge date revoked))).
  { intros date.
    unfold crl_validity, X509Certificate.crl_validity_at_date,
      X509Certificate.get_revocation_date.
    rewrite Hcrl. apply String.eqb_neq in Hne. rewrite Hne, Hparse. cbn.
    destruct (datetime.ge date revoked); reflexivity. }
  assert (Hfalse : forall date,
            crl_validity self date = Ok false <-> datetime.le revoked date).
  { intros date. rewrite Hrun, <- datetime_ge_le.
    destruct (datetime.ge date revoked); cbn; split; congruence. }
  split; [| split; [exact Hfalse |]].
  - intros date. rewrite Hrun, <- datetime_not_ge_lt.
    destruct (datetime.ge date revoked); cbn; split; congruence.
  - intros date later Hrev Hle. apply Hfalse. apply Hfalse in Hrev.
    unfold datetime.le in *. intros Hgt.
    assert (Hlt : datetime.lt later revoked).
    { unfold datetime.lt, datetime.cmp in *.
      rewrite cmp_fields_antisym, Hgt. reflexivity. }
    pose proof (datetime_le_lt_trans _ _ _ Hle Hlt) as Hlt'.
    exact (datetime_lt_not_le _ _ Hlt' Hrev).
Qed.

(** X15: for a certificate that holds verification results, [valid_at_date]
    answers [True] exactly when the date is inside the validity interval, the
    certificate is not revoked at the date (or, with CRL checking off, the
    caller ignores the missing check), and every other stored check is true. *)
Theorem valid_at_date_characterisation
    (self : X509Certificate.t) (date : datetime.t) (ignore : bool)
    (σ : gmap positive (gmap string Py.value)) (stored : positive)
    (base : gmap string Py.value) :
  X509Certificate.verification_results self = Some stored ->
  σ !! stored = Some base ->
  (valid_at_date self date ignore σ).1 = Ok true
  <-> X509Certificate.time_validity_at_date self date = Ok true
      /\ (if X509Certificate.check_crl self
          then crl_validity self date = Ok true
          else ignore = true)
      /\ X509Certificate.others_true base.
Proof.
  intros Hs Hbase.
  unfold valid_at_date.
  rewrite (valid_at_date_value certificate_rev_date self date ignore σ
             stored base Hs Hbase).
  unfold X509Certificate.recomputed. fold (crl_validity self date).
  destruct (X509Certificate.time_validity_at_date self date) as [time_ok | e];
    cbn; [| split; [discriminate | intros [H _]; discriminate H]].
  destruct (X509Certificate.check_crl self).
  - destruct (crl_validity self date) as [not_revoked | e]; cbn;
      [| split; [discriminate | intros (_ & H & _); discriminate H]].
    split.
    + intros [= H]. apply evaluate_recomputed in H as (Hacc & -> & Ho).
      destruct Hacc as [[= ->] | (_ & Hn & _)]; [auto | discriminate Hn].
    + intros ([= ->] & [= ->] & Ho). f_equal.
      apply evaluate_recomputed. split; [left; reflexivity | auto].
  - cbn. split.
    + intros [= H]. apply evaluate_recomputed in H as (Hacc & -> & Ho).
      destruct Hacc as [Hn | (_ & _ & ->)]; [discriminate Hn | auto].
    + intros ([= ->] & -> & Ho). f_equal.
      apply evaluate_recomputed. split; [right; auto | auto].
Qed.

Lemma others_true_agree (base other : gmap string Py.value) :
  (forall key, key <> "CERT_TIME_VALIDITY_OK" -> key <> "CERT_NOT_REVOKED" ->
               base !! key = other !! key) ->
  X509Certificate.others_true base -> X509Certificate.others_true other.
Proof.
  intros Hagree Ho key value Hk1 Hk2 Hv.
  rewrite <- Hagree in Hv by assumption. eapply Ho; eauto.
Qed.

(** X16: what the stored results say for CERT_TIME_VALIDITY_OK and
    CERT_NOT_REVOKED has no effect on [valid_at_date]: two stored
    dictionaries that agree on every other key give the same outcome. *)
Theorem valid_at_date_ignores_stored_date_checks
    (self : X509Certificate.t) (date : datetime.t) (ignore : bool)
    (σ σ' : gmap positive (gmap string Py.value)) (stored : positive)
    (base other : gmap string Py.value) :
  X509Certificate.verification_results self = Some stored ->
  σ !! stored = Some base ->
  σ' !! stored = Some other ->
  (forall key, key <> "CERT_TIME_VALIDITY_OK" -> key <> "CERT_NOT_REVOKED" ->
               base !! key = other !! key) ->
  (valid_at_date self date ignore σ).1 = (valid_at_date self date ignore σ').1.
Proof.
  intros Hs Hbase Hother Hagree. unfold valid_at_date.
  rewrite (valid_at_date_value certificate_rev_date self date ignore σ
             stored base Hs Hbase).
  rewrite (valid_at_date_value certificate_rev_date self date ignore σ'
             stored other Hs Hother).
  unfold X509Certificate.recomputed.
  destruct (X509Certificate.time_validity_at_date self date) as [time_ok | e];
    cbn; [| reflexivity].
  destruct (if X509Certificate.check_crl self then _ else _)
    as [revoked | e]; cbn; [| reflexivity].
  f_equal. apply eq_true_iff_eq.
  split; intros H; apply evaluate_recomputed;
    apply evaluate_recomputed in H as (Hacc & Ht & Ho); repeat split; auto.
  - eapply others_true_agree; eauto.
  - eapply others_true_agree; [| exact Ho].
    intros key Hk1 Hk2. symmetry. apply Hagree; assumption.
Qed.

(** X17: when a validity date of the certificate does not parse,
    [valid_at_date] on a certificate that holds verification results raises
    [ValueError] instead of answering [False]; the stored results stay as
    they were. *)
Theorem valid_at_date_malformed_validity
    (self : X509Certificate.t) (date : datetime.t) (ignore : bool)
    (σ : gmap positive (gmap string Py.value)) (stored : positive)
    (base : gmap string Py.value) (e : exn) :
  X509Certificate.verification_results self = Some stored ->
  σ !! stored = Some base ->
  X509Certificate.time_validity_at_date self date = Raise e ->
  (valid_at_date self date ignore σ).1 = Raise ValueError
  /\ (valid_at_date self date ignore σ).2 !! stored = Some base.
Proof.
  intros Hs Hbase Htime. split.
  - unfold valid_at_date.
    rewrite (valid_at_date_value certificate_rev_date self date ignore σ
               stored base Hs Hbase).
    unfold X509Certificate.recomputed. rewrite Htime.
    apply time_validity_raises_ValueError in Htime as ->. reflexivity.
  - apply valid_at_date_frame. exact Hbase.
Qed.

(** X18: [is_verified] evaluates the stored results as they are and leaves
    the store as it is. Passing [ignore_missing_crl_check] can only turn a
    failure into a pass, and changes nothing unless the stored
    CERT_NOT_REVOKED is [None]. *)
Theorem is_verified_policy
    (self : X509Certificate.t)
    (σ : gmap positive (gmap string Py.value)) (stored : positive)
    (base : gmap string Py.value) :
  X509Certificate.verification_results self = Some stored ->
  σ !! stored = Some base ->
  (forall ignore,
     X509Certificate.is_verified self ignore σ
     = (Ok (X509Certificate._evaluate_verification_results (Some base) ignore),
        σ))
  /\ ((X509Certificate.is_verified self false σ).1 = Ok true ->
      (X509Certificate.is_verified self true σ).1 = Ok true)
  /\ (base !! "CERT_NOT_REVOKED" <> Some Py.PyNone ->
      X509Certificate.is_verified self true σ
      = X509Certificate.is_verified self false σ).
Proof.
  intros Hs Hbase.
  assert (Hrun : forall ignore,
            X509Certificate.is_verified self ignore σ
            = (Ok (X509Certificate._evaluate_verification_results (Some base)
                     ignore), σ)).
  { intros ignore. unfold X509Certificate.is_verified. rewrite Hs.
    unfold X509Certificate.deref, X509Certificate.read, mbind,
      X509Certificate.M_bind, mret, X509Certificate.M_ret.
    rewrite Hbase. reflexivity. }
  split; [exact Hrun | split].
  - rewrite !Hrun. cbn [fst]. intros [= H]. f_equal.
    apply evaluate_dict. intros key value Hkv.
    apply (proj1 (evaluate_dict base false) H) in Hkv
      as [-> | (_ & _ & Hf)]; [left; reflexivity | discriminate Hf].
  - intros Hset. rewrite !Hrun. do 2 f_equal. apply eq_true_iff_eq.
    rewrite !evaluate_dict. split; intros H key value Hkv;
      (destruct (H key value Hkv) as [-> | (-> & -> & Hf)];
       [left; reflexivity | contradiction]).
Qed.

End ValidityPolicy.

Lemma sample_base_others_true :
  X509Certificate.others_true {[ "CERT_SIGNATURE_OK" := Py.PyBool true ]}.
Proof.
  intros key value _ _ H. apply lookup_singleton_Some in H as [_ <-].
  reflexivity.
Qed.

Lemma sample_verified_lookup :
  Sample.verified !! 1%positive
  = Some {[ "CERT_SIGNATURE_OK" := Py.PyBool true ]}.
Proof. apply lookup_singleton_eq. Qed.

(** Revoked on the 6th: not revoked on the 5th, revoked on the 6th. *)
Lemma crl_validity_from_revocation_date_witness :
  let self := Sample.certificate (Some 1%positive) true in
  X509Certificate.crl_validity_at_date Sample.revoked_on_the_6th self
    (datetime.mk 2020 1 5 0 0 0 0) = Ok true
  /\ X509Certificate.crl_validity_at_date Sample.revoked_on_the_6th self
       (datetime.mk 2020 1 6 0 0 0 0) = Ok false.
Proof.
  intros self.
  destruct (crl_validity_from_revocation_date Sample.revoked_on_the_6th self
              "20200106000000Z" (datetime.mk 2020 1 6 0 0 0 0))
    as (Hbefore & Hfrom & _);
    [vm_compute; reflexivity | discriminate | reflexivity |].
  split.
  - apply Hbefore. reflexivity.
  - apply Hfrom. vm_compute. discriminate.
Defined.

(** Inside the interval, nothing in the CRL store, signature check true. *)
Lemma valid_at_date_characterisation_witness :
  (X509Certificate.valid_at_date Sample.no_revocation
     (Sample.certificate (Some 1%positive) true)
     (datetime.mk 2020 1 5 0 0 0 0) false Sample.verified).1 = Ok true.
Proof.
  apply (valid_at_date_characterisation Sample.no_revocation
           (Sample.certificate (Some 1%positive) true)
           (datetime.mk 2020 1 5 0 0 0 0) false Sample.verified 1%positive
           _ eq_refl sample_verified_lookup).
  split; [reflexivity | split; [reflexivity | exact sample_base_others_true]].
Defined.

(** A false time check left in the stored results changes nothing. *)
Lemma valid_at_date_ignores_stored_date_checks_witness :
  let self := Sample.certificate (Some 1%positive) true in
  let date := datetime.mk 2020 1 5 0 0 0 0 in
  (X509Certificate.valid_at_date Sample.no_revocation self date false
     Sample.verified).1
  = (X509Certificate.valid_at_date Sample.no_revocation self date false
       Sample.verified_stale).1.
Proof.
  intros self date.
  apply (valid_at_date_ignores_stored_date_checks Sample.no_revocation
           self date false Sample.verified Sample.verified_stale 1%positive
           _ _ eq_refl sample_verified_lookup (lookup_singleton_eq _ _)).
  intros key Hk1 Hk2. rewrite lookup_insert_ne by congruence. reflexivity.
Defined.

(** A notBefore of "2020-01-01": raised, not answered. *)
Lemma valid_at_date_malformed_validity_witness :
  (X509Certificate.valid_at_date Sample.no_revocation
     Sample.malformed_certificate (datetime.mk 2020 1 5 0 0 0 0) false
     Sample.verified).1 = Raise ValueError.
Proof.
  apply (valid_at_date_malformed_validity Sample.no_revocation
           Sample.malformed_certificate (datetime.mk 2020 1 5 0 0 0 0) false
           Sample.verified 1%positive _ ValueError eq_refl
           sample_verified_lookup).
  reflexivity.
Defined.

(** The sample certificate is verified, with and without the flag. *)
Lemma is_verified_policy_witness :
  X509Certificate.is_verified (Sample.certificate (Some 1%positive) true) true
    Sample.verified
  = X509Certificate.is_verified (Sample.certificate (Some 1%positive) true)
      false Sample.verified.
Proof.
  apply (is_verified_policy (Sample.certificate (Some 1%positive) true)
           Sample.verified 1%positive _ eq_refl sample_verified_lookup).
  rewrite lookup_singleton_ne by discriminate. discriminate.
Defined.

(** ** Name: what the dictionary keeps *)

(** X19: a name keeps every value it read, under the key of its type and in
    reading order, repeated values included; its keys are exactly the types
    that occurred. *)
Theorem Name_values_in_reading_order
    (name : list (list Name.AttributeTypeAndValue)) :
  (forall key,
     Name.get (Name.__init__ name) key
     = Name.value
       <$> filter (fun a => Name.typeStr (Name.type a) = key)
             (Name.attributes_read name))
  /\ (forall a,
        a ∈ Name.attributes_read name ->
        Name.typeStr (Name.type a) ∈ Name.keys (Name.__init__ name)
        /\ Name.value a
           ∈ Name.get (Name.__init__ name) (Name.typeStr (Name.type a)))
  /\ (forall key,
        key ∈ Name.keys (Name.__init__ name)
        <-> Name.get (Name.__init__ name) key <> [])
  /\ NoDup (Name.keys (Name.__init__ name)).
Proof.
  split; [intros key; apply Name_get |].
  split; [| split].
  - intros a Ha. split.
    + apply Name_keys_elem. eauto.
    + rewrite Name_get. unfold Name.values_for.
      apply list_elem_of_fmap. exists a. split; [reflexivity |].
      apply list_elem_of_filter. auto.
  - intros key. rewrite Name_keys_elem, Name_get. unfold Name.values_for.
    split.
    + intros (a & Ha & Hk) Hnil.
      assert (Hin : Name.value a
                    ∈ Name.value
                      <$> filter (fun a => Name.typeStr (Name.type a) = key)
                            (Name.attributes_read name)).
      { apply list_elem_of_fmap. exists a. split; [reflexivity |].
        apply list_elem_of_filter. auto. }
      rewrite Hnil in Hin. inversion Hin.
    + intros Hne.
      destruct (filter _ _) as [| a l] eqn:E; [contradiction |].
      assert (Ha : a ∈ filter (fun a => Name.typeStr (Name.type a) = key)
                         (Name.attributes_read name))
        by (rewrite E; left).
      apply list_elem_of_filter in Ha as [Hk Ha]. eauto.
  - apply NoDup_fst_map_to_list.
Qed.

(** ** Name: RDNs with more than one attribute *)

(** Names that read the same attributes up to order have the same string. *)
Lemma Name_str_perm (parts1 parts2 : list (list Name.AttributeTypeAndValue)) :
  Name.attributes_read parts1 ≡ₚ Name.attributes_read parts2 ->
  Name.__str__ (Name.__init__ parts1) = Name.__str__ (Name.__init__ parts2).
Proof.
  intros Hperm. rewrite !Name_str_render.
  rewrite (sorted_perm _ _ (Name_keys_perm _ _ Hperm)).
  f_equal. apply list_fmap_ext. intros _ key _.
  rewrite (sorted_perm _ _ (values_for_perm key _ _ Hperm)). reflexivity.
Qed.

Lemma read_part_single_valued (name_part : list NameInput.rdn) :
  Forall (fun attr : NameInput.rdn => length attr = 1%nat) name_part ->
  NameInput.read_part name_part = Ok (concat name_part).
Proof.
  induction 1 as [| attr rest Hattr _ IH]; [reflexivity |].
  destruct attr as [| a [| b attr]]; try discriminate Hattr.
  cbn. rewrite IH. reflexivity.
Qed.

Lemma read_single_valued (name : list (list NameInput.rdn)) :
  NameInput.single_valued name ->
  exists parts,
    NameInput.read name = Ok parts
    /\ Name.attributes_read parts = NameInput.attributes name.
Proof.
  unfold NameInput.single_valued, NameInput.attributes, Name.attributes_read.
  induction 1 as [| name_part rest Hpart _ IH].
  - exists []. split; reflexivity.
  - destruct IH as (parts & Hread & Hattrs).
    exists (concat name_part :: parts). split.
    + cbn. rewrite (read_part_single_valued _ Hpart), Hread. reflexivity.
    + cbn. rewrite concat_app, Hattrs. reflexivity.
Qed.

(** X21: two RDN sequences whose RDNs hold one attribute each and whose
    attributes are the same up to order give names, and the two names have
    the same string. *)
Theorem Name_single_valued_rdns_order_independent
    (name1 name2 : list (list NameInput.rdn)) :
  NameInput.single_valued name1 ->
  NameInput.single_valued name2 ->
  NameInput.attributes name1 ≡ₚ NameInput.attributes name2 ->
  exists s, NameInput.Name_str name1 = Ok s /\ NameInput.Name_str name2 = Ok s.
Proof.
  intros H1 H2 Hperm.
  destruct (read_single_valued _ H1) as (parts1 & Hread1 & Hattrs1).
  destruct (read_single_valued _ H2) as (parts2 & Hread2 & Hattrs2).
  exists (Name.__str__ (Name.__init__ parts1)).
  unfold NameInput.Name_str, NameInput.Name. rewrite Hread1, Hread2. cbn.
  split; [reflexivity |]. f_equal. symmetry.
  apply Name_str_perm. rewrite Hattrs1, Hattrs2. exact Hperm.
Qed.

(** CN=a and O=b as two RDNs, in both orders. *)
Lemma Name_single_valued_rdns_order_independent_witness :
  let cn_a := Sample.attribute "2.5.4.3" "a" in
  let o_b := Sample.attribute "2.5.4.10" "b" in
  exists s,
    NameInput.Name_str [[[cn_a]; [o_b]]] = Ok s
    /\ NameInput.Name_str [[[o_b]; [cn_a]]] = Ok s.
Proof.
  intros cn_a o_b.
  apply (Name_single_valued_rdns_order_independent
           [[[cn_a]; [o_b]]] [[[o_b]; [cn_a]]]).
  - repeat constructor.
  - repeat constructor.
  - apply perm_swap.
Defined.

(** C5: the claim, evaluated. The attributes CN=a and O=b as one RDN and as
    two RDNs are the same multiset; the name built from the one RDN has the
    string of its first attribute alone, in either order of the set, and the
    name built from the two RDNs has the string of both. *)
Lemma Name_str_multivalued_rdn :
  let cn_a := Sample.attribute "2.5.4.3" "a" in
  let o_b := Sample.attribute "2.5.4.10" "b" in
  NameInput.attributes [[[cn_a; o_b]]] ≡ₚ NameInput.attributes [[[cn_a]; [o_b]]]
  /\ NameInput.attributes [[[cn_a; o_b]]] ≡ₚ NameInput.attributes [[[o_b; cn_a]]]
  /\ NameInput.Name_str [[[cn_a]; [o_b]]] = Ok "CN=a, O=b"
  /\ NameInput.Name_str [[[cn_a; o_b]]] = Ok "CN=a"
  /\ NameInput.Name_str [[[o_b; cn_a]]] = Ok "O=b".
Proof.
  cbv zeta. split; [reflexivity |]. split; [apply perm_swap |].
  repeat split; vm_compute; reflexivity.
Qed.
